(** * A data-access object over the DynamoDB table "users"

    Shallow embedding of [src/dynamoDB/users.py] (class [Users]) and of
    [src/utils/db_helper.py] ([connect_dynamodb]).

    The Python methods are translated into a state-and-exception monad.  The
    state holds the fields of the object ([self.table]), what the methods
    write to the logger and to standard output, the remote service (an
    arbitrary type of worlds with one transition function per remote
    operation) and the history of the calls made to the client library of that
    service. *)

From stdpp Require Import gmap strings list fin_maps sorting.
From Stdlib Require Import ZArith Ascii.

Local Open Scope string_scope.
Local Open Scope list_scope.

(** ** Python values, records and exceptions *)

(** The scalars a caller may pass for a key or for a field. *)
Inductive value : Type :=
| VStr (s : string)
| VInt (z : Z)
| VBool (b : bool)
| VNone.

#[global] Instance value_eq_dec : EqDecision value.
Proof. solve_decision. Defined.

(** A record (a Python dict from attribute names to values). *)
Abbreviation item := (gmap string value).

(** What a raw service response holds under one of its keys. *)
Inductive field : Type :=
| Items (l : list item)
| Attributes (a : item)
| Metadata (s : string).

(** A raw service response (a Python dict). *)
Abbreviation response := (gmap string field).

(** The exceptions that reach the methods.  [ClientError] is
    [botocore.exceptions.ClientError] with [err.response['Error']['Code']]
    and [err.response['Error']['Message']]; the three others stand for every
    other subclass of [Exception]. *)
Inductive exn : Type :=
| ClientError (Code Message : string)
| AttributeError (attribute : string)
| KeyError (key : string)
| OtherException (name : string).

Definition is_ClientError (e : exn) : bool :=
  match e with ClientError _ _ => true | _ => false end.

Inductive result (A : Type) : Type :=
| Ok (a : A)
| Raise (e : exn).
Arguments Ok {A} a.
Arguments Raise {A} e.

(** ** Requests *)

Record key_schema_element : Type :=
  KeySchemaElement { ks_AttributeName : string; KeyType : string }.

Record attribute_definition : Type :=
  AttributeDefinition { ad_AttributeName : string; AttributeType : string }.

(** [Key(attr).eq(v)] of [boto3.dynamodb.conditions]. *)
Inductive condition : Type :=
| KeyEq (attr : string) (v : value).

Inductive request : Type :=
| ReqLoad (tbl : string)
| ReqTablesAll
| ReqCreateTable (TableName : string) (KeySchema : list key_schema_element)
    (AttributeDefinitions : list attribute_definition) (BillingMode : string)
| ReqWaitUntilExists (tbl : string)
| ReqDelete (tbl : string)
| ReqPutItem (tbl : string) (Item : item)
| ReqQuery (tbl : string) (IndexName : option string)
    (KeyConditionExpression : condition)
| ReqUpdateItem (tbl : string) (Key : item) (UpdateExpression : string)
    (ExpressionAttributeValues : item) (ReturnValues : string)
| ReqDeleteItem (tbl : string) (Key : item).

(** The remote service: a type of worlds and, for each remote operation, what
    it answers (or raises) and the world it leaves.  A table resource is
    identified by its name.  [tables_all] gives the tables the paginated
    collection yields and the exception that ends the iteration, if any. *)
Record Service (W : Type) : Type := {
  svc_load : string → W → result () * W;
  svc_tables_all : W → (list string * option exn) * W;
  svc_create_table :
    string → list key_schema_element → list attribute_definition → string →
    W → result string * W;
  svc_wait_until_exists : string → W → result () * W;
  svc_delete : string → W → result () * W;
  svc_put_item : string → item → W → result response * W;
  svc_query : string → option string → condition → W → result response * W;
  svc_update_item :
    string → item → string → item → string → W → result response * W;
  svc_delete_item : string → item → W → result response * W
}.
Arguments svc_load {W}.
Arguments svc_tables_all {W}.
Arguments svc_create_table {W}.
Arguments svc_wait_until_exists {W}.
Arguments svc_delete {W}.
Arguments svc_put_item {W}.
Arguments svc_query {W}.
Arguments svc_update_item {W}.
Arguments svc_delete_item {W}.

(** ** [utils/db_helper.py] *)

(** The arguments [connect_dynamodb] gives to [boto3.resource]; what the
    client library takes from its own configuration is not part of it. *)
Record ServiceHandle : Type := {
  aws_access_key_id : option string;
  aws_secret_access_key : option string;
  region_name : string
}.

(** [connect_dynamodb()], given the two values of [global_variables.py].
    [boto3.resource] takes the two credentials together or not at all: with
    one of them only it raises [PartialCredentialsError], which is no
    provider error. *)
Definition connect_dynamodb (AWS_ACCESS_KEY_ID AWS_SECRET_ACCESS_KEY : option string)
  : result ServiceHandle :=
  match AWS_ACCESS_KEY_ID, AWS_SECRET_ACCESS_KEY with
  | Some _, None | None, Some _ =>
      Raise (OtherException "PartialCredentialsError")
  | _, _ =>
      Ok {| aws_access_key_id := AWS_ACCESS_KEY_ID;
            aws_secret_access_key := AWS_SECRET_ACCESS_KEY;
            region_name := "us-east-1" |}
  end.

(** ** The state of a [Users] object and of its surroundings *)

(** One [print] call. *)
Inductive output : Type :=
| OutLine (s : string)
| OutTraceback (prefix : option string) (e : exn).

Record state (W : Type) : Type := State {
  world : W;
  dyn_resource : ServiceHandle;
  table : option string;
  log : list string;
  stdout : list output;
  calls : list request
}.
Arguments State {W}.
Arguments world {W}.
Arguments dyn_resource {W}.
Arguments table {W}.
Arguments log {W}.
Arguments stdout {W}.
Arguments calls {W}.

(** ** The monad of the methods *)

Definition M (W A : Type) : Type := state W → result A * state W.

Definition ret {W A} (a : A) : M W A := λ st, (Ok a, st).

Definition raise {W A} (e : exn) : M W A := λ st, (Raise e, st).

Definition bind {W A B} (c : M W A) (k : A → M W B) : M W B :=
  λ st, match c st with
        | (Ok a, st') => k a st'
        | (Raise e, st') => (Raise e, st')
        end.

Notation "'let*' x ':=' c 'in' k" := (bind c (λ x, k))
  (at level 10, x pattern, c at level 100, k at level 200).

(** [try: body  except ...: handler]: [handler e] is [None] when no [except]
    clause matches [e], which then propagates. *)
Definition try_except {W A} (body : M W A) (handler : exn → option (M W A))
  : M W A :=
  λ st, match body st with
        | (Ok a, st') => (Ok a, st')
        | (Raise e, st') =>
            match handler e with
            | Some h => h st'
            | None => (Raise e, st')
            end
        end.

(** [try: body  except ...: handler  else: orelse]: the [else] block runs
    when the body raised nothing, outside the reach of the handlers. *)
Definition try_except_else {W A B} (body : M W A)
    (handler : exn → option (M W B)) (orelse : A → M W B) : M W B :=
  λ st, match body st with
        | (Ok a, st') => orelse a st'
        | (Raise e, st') =>
            match handler e with
            | Some h => h st'
            | None => (Raise e, st')
            end
        end.

Definition get_table {W} : M W (option string) := λ st, (Ok (table st), st).

Definition set_table {W} (t : option string) : M W () :=
  λ st, (Ok (), State (world st) (dyn_resource st) t (log st) (stdout st) (calls st)).

(** [logger.error(...)], with the message already formatted. *)
Definition logger_error {W} (msg : string) : M W () :=
  λ st, (Ok (), State (world st) (dyn_resource st) (table st) (log st ++ [msg])
                  (stdout st) (calls st)).

Definition print {W} (o : output) : M W () :=
  λ st, (Ok (), State (world st) (dyn_resource st) (table st) (log st)
                  (stdout st ++ [o]) (calls st)).

(** A request to the remote service: it is recorded, and the service moves
    the world, whether it answers or raises. *)
Definition remote {W A} (rq : request) (op : W → result A * W) : M W A :=
  λ st, let '(r, w) := op (world st) in
        (r, State w (dyn_resource st) (table st) (log st) (stdout st)
              (calls st ++ [rq])).

(** [self.table.<method>]: an [AttributeError] when [self.table] is [None]. *)
Definition self_table {W A} (method : string) (k : string → M W A) : M W A :=
  λ st, match table st with
        | Some t => k t st
        | None => (Raise (AttributeError method), st)
        end.

(** [d[key]] on a response. *)
Definition getitem {W} (d : response) (key : string) : M W field :=
  match d !! key with
  | Some v => ret v
  | None => raise (KeyError key)
  end.

(** ** [dynamoDB/users.py]: the class [Users] *)

Module Users.
Section Methods.
Context {W : Type} (svc : Service W).

(** [self.dyn_resource.Table(name)] builds a table resource locally. *)
Definition Table (name : string) : string := name.

(** [__init__], from the credentials of the environment and the world the
    process starts in; no object is built when the connection raises. *)
Definition init (AWS_ACCESS_KEY_ID AWS_SECRET_ACCESS_KEY : option string)
    (w : W) : result (state W) :=
  match connect_dynamodb AWS_ACCESS_KEY_ID AWS_SECRET_ACCESS_KEY with
  | Ok dyn_resource => Ok (State w dyn_resource (Some (Table "users")) [] [] [])
  | Raise e => Raise e
  end.

Definition exists_ : M W bool :=
  try_except_else
    (let table := Table "users" in
     let* _ := remote (ReqLoad table) (svc_load svc table) in
     ret (table, true))
    (λ err,
       match err with
       | ClientError Code Message =>
           Some (if String.eqb Code "ResourceNotFoundException"
                 then ret false
                 else
                   let* _ := logger_error
                     ("Couldn't check for existence of " +:+ "users" +:+
                      ". Here's why: " +:+ Code +:+ ": " +:+ Message) in
                   raise err)
       | _ => None
       end)
    (λ '(table, exists_), let* _ := set_table (Some table) in ret exists_).

(** The loop of [list_tables] over the tables the collection yields. *)
Fixpoint for_tables (yielded : list string) (tables : list string)
  : M W (list string) :=
  match yielded with
  | [] => ret tables
  | table :: rest =>
      let* _ := print (OutLine table) in
      for_tables rest (tables ++ [table])
  end.

Definition list_tables : M W (list string) :=
  try_except_else
    (let tables := [] in
     let* (yielded, stop) :=
       remote ReqTablesAll
         (λ w, let '(r, w') := svc_tables_all svc w in (Ok r, w')) in
     let* tables := for_tables yielded tables in
     match stop with
     | Some e => raise e
     | None => ret tables
     end)
    (λ err,
       match err with
       | ClientError Code Message =>
           Some (let* _ := logger_error
                   ("Couldn't list tables. Here's why: " +:+ Code +:+ ": "
                    +:+ Message) in
                 raise err)
       | _ => None
       end)
    (λ tables, ret tables).

Definition KeySchema : list key_schema_element :=
  [KeySchemaElement "user_id" "HASH"; KeySchemaElement "full_name" "RANGE"].

Definition AttributeDefinitions : list attribute_definition :=
  [AttributeDefinition "user_id" "S"; AttributeDefinition "full_name" "S"].

Definition create_table (table_name : string) : M W (option string) :=
  try_except_else
    (let* t := remote
         (ReqCreateTable table_name KeySchema AttributeDefinitions
            "PAY_PER_REQUEST")
         (svc_create_table svc table_name KeySchema AttributeDefinitions
            "PAY_PER_REQUEST") in
     let* _ := set_table (Some t) in
     self_table "wait_until_exists"
       (λ t, remote (ReqWaitUntilExists t) (svc_wait_until_exists svc t)))
    (λ err,
       match err with
       | ClientError Code Message =>
           Some (let* _ := logger_error
                   ("Couldn't create table " +:+ table_name +:+
                    ". Here's why: " +:+ Code +:+ ": " +:+ Message) in
                 raise err)
       | _ => None
       end)
    (λ _, get_table).

Definition delete_table : M W () :=
  try_except
    (let* _ := self_table "delete"
                 (λ t, remote (ReqDelete t) (svc_delete svc t)) in
     set_table None)
    (λ err,
       match err with
       | ClientError Code Message =>
           Some (let* _ := logger_error
                   ("Couldn't delete table. Here's why: " +:+ Code +:+ ": "
                    +:+ Message) in
                 raise err)
       | _ => None
       end).

(** The dict literal [{'user_id': user_id, 'full_name': full_name}]. *)
Definition key_item (user_id full_name : value) : item :=
  <["full_name" := full_name]> (<["user_id" := user_id]> ∅).

Definition add_user (user_id full_name : value) : M W (option response) :=
  try_except
    (let* response := self_table "put_item"
         (λ t, let Item := key_item user_id full_name in
               remote (ReqPutItem t Item) (svc_put_item svc t Item)) in
     ret (Some response))
    (λ err, Some (let* _ := print (OutTraceback (Some "ERROR: ") err) in
                  ret None)).

Definition query_by_user_id (user_id : value) : M W (option field) :=
  try_except
    (let* response := self_table "query"
         (λ t, let cond := KeyEq "user_id" user_id in
               remote (ReqQuery t None cond) (svc_query svc t None cond)) in
     let* items := getitem response "Items" in
     ret (Some items))
    (λ err, Some (let* _ := print (OutTraceback (Some "ERROR: ") err) in
                  ret None)).

Definition query_by_user_name (name : value) : M W (option field) :=
  try_except
    (let* response := self_table "query"
         (λ t, let cond := KeyEq "name" name in
               remote (ReqQuery t (Some "name-index") cond)
                 (svc_query svc t (Some "name-index") cond)) in
     let* items := getitem response "Items" in
     ret (Some items))
    (λ err, Some (let* _ := print (OutTraceback (Some "ERROR: ") err) in
                  ret None)).

(** The loop of [update_user] over [kwargs.items()]. *)
Fixpoint for_kwargs (kwargs : list (string * value))
    (update_expression : list string) (expression_attributes : item)
  : list string * item :=
  match kwargs with
  | [] => (update_expression, expression_attributes)
  | (k, v) :: rest =>
      for_kwargs rest (update_expression ++ [k +:+ "=:" +:+ k])
        (<[":" +:+ k := v]> expression_attributes)
  end.

Definition update_user (user_id full_name : value)
    (kwargs : list (string * value)) : M W (option field) :=
  try_except
    (let '(update_expression, expression_attributes) :=
       for_kwargs kwargs [] ∅ in
     let update_expression :=
       "set " +:+ String.concat ", " update_expression in
     let* response := self_table "update_item"
         (λ t, let Key := key_item user_id full_name in
               remote
                 (ReqUpdateItem t Key update_expression
                    expression_attributes "UPDATED_NEW")
                 (svc_update_item svc t Key update_expression
                    expression_attributes "UPDATED_NEW")) in
     let* attributes := getitem response "Attributes" in
     ret (Some attributes))
    (λ err, Some (let* _ := print (OutTraceback None err) in ret None)).

Definition delete_user_by_id (user_id full_name : value) : M W bool :=
  try_except
    (let* _ := self_table "delete_item"
         (λ t, let Key := key_item user_id full_name in
               remote (ReqDeleteItem t Key) (svc_delete_item svc t Key)) in
     ret true)
    (λ err,
       match err with
       | ClientError _ _ =>
           Some (let* _ := print (OutTraceback (Some "Error: ") err) in
                 ret false)
       | _ => None
       end).

End Methods.
End Users.

(** ** A reference table service

    The remote database is no code of the repository.  The service below
    follows what the specification says of it (sections 3, 4.2, 6 and 8): it
    is the service the methods are run on in the examples, and the one on
    which writing a record and reading it back is studied.  Reads are taken
    as consistent; a query on the table gives the records of a partition in
    the order of their sort key. *)

Module Reference.

(** Modelled from the spec: a table of the remote service, its records and
    its secondary indexes (name and key attribute). *)
Record table_data : Type := TableData {
  records : list item;
  indexes : list (string * string)
}.

(** Modelled from the spec: the remote service holds named tables. *)
Abbreviation db := (gmap string table_data).

(** Modelled from the spec: the provider error for a table that does not
    exist. *)
Definition not_found {A} : result A :=
  Raise (ClientError "ResourceNotFoundException"
           "Requested resource not found").

(** Modelled from the spec: the provider error for a request the service
    rejects. *)
Definition validation {A} (msg : string) : result A :=
  Raise (ClientError "ValidationException" msg).

Definition metadata : response := {[ "ResponseMetadata" := Metadata "200" ]}.

(** Modelled from the spec: the key pair of a record, partition key
    [user_id] and sort key [full_name], both of string type. *)
Definition key_of (it : item) : option (string * string) :=
  match it !! "user_id", it !! "full_name" with
  | Some (VStr u), Some (VStr f) => Some (u, f)
  | _, _ => None
  end.

Definition has_key (k : string * string) (it : item) : bool :=
  bool_decide (key_of it = Some k).

Definition has_attr (attr : string) (v : value) (it : item) : bool :=
  bool_decide (it !! attr = Some v).

(** Modelled from the spec: loading the metadata of a table succeeds when the
    table exists and reports "table not found" otherwise. *)
Definition load (t : string) (w : db) : result () * db :=
  match w !! t with
  | Some _ => (Ok (), w)
  | None => (not_found, w)
  end.

(** Modelled from the spec: the enumeration of the tables of the account. *)
Definition tables_all (w : db) : (list string * option exn) * db :=
  (((map_to_list w).*1, None), w).

(** Modelled from the spec: creating a table that exists already is an
    error; a new table is empty and has no secondary index. *)
Definition create_table (name : string) (ks : list key_schema_element)
    (ad : list attribute_definition) (billing : string) (w : db)
  : result string * db :=
  match w !! name with
  | Some _ =>
      (Raise (ClientError "ResourceInUseException" "Table already exists"), w)
  | None => (Ok name, <[name := TableData [] []]> w)
  end.

(** Modelled from the spec: the wait for a table comes back once the service
    reports the table; for a table that never appears the waiter gives up
    with an error of its own, which is no provider error. *)
Definition wait_until_exists (t : string) (w : db) : result () * db :=
  match w !! t with
  | Some _ => (Ok (), w)
  | None => (Raise (OtherException "WaiterError"), w)
  end.

(** Modelled from the spec: deleting a table destroys its records. *)
Definition delete (t : string) (w : db) : result () * db :=
  match w !! t with
  | Some _ => (Ok (), base.delete t w)
  | None => (not_found, w)
  end.

(** Modelled from the spec: a write inserts the record or replaces the whole
    record of the same key pair. *)
Definition put_item (t : string) (it : item) (w : db) : result response * db :=
  match w !! t with
  | None => (not_found, w)
  | Some td =>
      match key_of it with
      | None => (validation "Missing or mistyped key attribute", w)
      | Some k =>
          let others := filter (λ r, has_key k r = false) (records td) in
          (Ok metadata, <[t := TableData (others ++ [it]) (indexes td)]> w)
      end
  end.

(** Modelled from the spec: the sort key of a record, which orders the
    records that share a partition key. *)
Definition sort_key (it : item) : string :=
  match it !! "full_name" with
  | Some (VStr f) => f
  | _ => ""
  end.

Definition by_sort_key (r1 r2 : item) : Prop :=
  String.le (sort_key r1) (sort_key r2).

#[global] Instance by_sort_key_dec : RelDecision by_sort_key.
Proof. intros r1 r2. unfold by_sort_key. apply _. Defined.

(** Modelled from the spec: a query gives the records whose key attribute,
    the partition key of the table or the key of the index named, equals the
    value given; the index must exist.  On the table itself the records come
    in the order of their sort key. *)
Definition query (t : string) (index : option string) (cond : condition)
    (w : db) : result response * db :=
  match w !! t with
  | None => (not_found, w)
  | Some td =>
      let 'KeyEq attr v := cond in
      let key_attr :=
        match index with
        | None => Some "user_id"
        | Some ix => list_to_map (M := gmap string string) (indexes td) !! ix
        end in
      match key_attr with
      | None => (validation "The table does not have the specified index", w)
      | Some a =>
          if bool_decide (a = attr) then
            let found := filter (λ r, has_attr attr v r = true) (records td) in
            let found :=
              match index with
              | None => merge_sort by_sort_key found
              | Some _ => found
              end in
            (Ok (<["Items" := Items found]> metadata), w)
          else (validation "Query condition missed key schema element", w)
      end
  end.

(** *** [set] expressions *)

Fixpoint strip_prefix (p s : string) : option string :=
  match p, s with
  | EmptyString, _ => Some s
  | String a p', String b s' =>
      if Ascii.eqb a b then strip_prefix p' s' else None
  | String _ _, EmptyString => None
  end.

Fixpoint split (sep : Ascii.ascii) (s : string) : list string :=
  match s with
  | EmptyString => [EmptyString]
  | String c s' =>
      if Ascii.eqb c sep then EmptyString :: split sep s'
      else match split sep s' with
           | h :: tl => String c h :: tl
           | [] => [String c EmptyString]
           end
  end.

Fixpoint ltrim (s : string) : string :=
  match s with
  | String c s' => if Ascii.eqb c " "%char then ltrim s' else s
  | EmptyString => EmptyString
  end.

Definition is_letter (c : Ascii.ascii) : bool :=
  let n := nat_of_ascii c in
  ((65 <=? n) && (n <=? 90) || (97 <=? n) && (n <=? 122))%nat.

Definition is_digit (c : Ascii.ascii) : bool :=
  let n := nat_of_ascii c in ((48 <=? n) && (n <=? 57))%nat.

Definition is_name_char (c : Ascii.ascii) : bool :=
  is_letter c || is_digit c || Ascii.eqb c "_"%char.

Fixpoint all_chars (p : Ascii.ascii → bool) (s : string) : bool :=
  match s with
  | EmptyString => true
  | String c s' => p c && all_chars p s'
  end.

(** An attribute name that an expression may hold as it is, with no
    [ExpressionAttributeNames]: a letter, then letters, digits and
    underscores. *)
Definition valid_name (s : string) : bool :=
  match s with
  | String c s' => is_letter c && all_chars is_name_char s'
  | EmptyString => false
  end.

(** [path=:placeholder] *)
Definition parse_assignment (s : string) : option (string * string) :=
  match split "="%char s with
  | [path; ph] =>
      match ph with
      | String ":"%char (String c rest) =>
          if valid_name path && all_chars is_name_char (String c rest)
          then Some (path, ph)
          else None
      | _ => None
      end
  | _ => None
  end.

(** Modelled from the spec: a "set" expression over named attribute
    placeholders, that is [set] and then assignments [path=:placeholder]
    separated by commas; with no assignment the expression is malformed. *)
Definition parse_set (expr : string) : option (list (string * string)) :=
  rest ← strip_prefix "set " expr;
  mapM parse_assignment (ltrim <$> split ","%char rest).

Definition upper (c : Ascii.ascii) : Ascii.ascii :=
  let n := nat_of_ascii c in
  if ((97 <=? n) && (n <=? 122))%nat then ascii_of_nat (n - 32) else c.

Fixpoint uppercase (s : string) : string :=
  match s with
  | EmptyString => EmptyString
  | String c s' => String (upper c) (uppercase s')
  end.

(** The words the service reserves: an expression may not hold one of them
    as an attribute name, in any case of letters. *)
Definition reserved_words : list string :=
  ["ABORT"; "ABSOLUTE"; "ACTION"; "ADD"; "AFTER"; "AGENT"; "AGGREGATE";
   "ALL"; "ALLOCATE"; "ALTER"; "ANALYZE"; "AND"; "ANY"; "ARCHIVE"; "ARE";
   "ARRAY"; "AS"; "ASC"; "ASCII"; "ASENSITIVE"; "ASSERTION"; "ASYMMETRIC";
   "AT"; "ATOMIC"; "ATTACH"; "ATTRIBUTE"; "AUTH"; "AUTHORIZATION";
   "AUTHORIZE"; "AUTO"; "AVG"; "BACK"; "BACKUP"; "BASE"; "BATCH"; "BEFORE";
   "BEGIN"; "BETWEEN"; "BIGINT"; "BINARY"; "BIT"; "BLOB"; "BLOCK";
   "BOOLEAN"; "BOTH"; "BREADTH"; "BUCKET"; "BULK"; "BY"; "BYTE"; "CALL";
   "CALLED"; "CALLING"; "CAPACITY"; "CASCADE"; "CASCADED"; "CASE"; "CAST";
   "CATALOG"; "CHAR"; "CHARACTER"; "CHECK"; "CLASS"; "CLOB"; "CLOSE";
   "CLUSTER"; "CLUSTERED"; "CLUSTERING"; "CLUSTERS"; "COALESCE"; "COLLATE";
   "COLLATION"; "COLLECTION"; "COLUMN"; "COLUMNS"; "COMBINE"; "COMMENT";
   "COMMIT"; "COMPACT"; "COMPILE"; "COMPRESS"; "CONDITION"; "CONFLICT";
   "CONNECT"; "CONNECTION"; "CONSISTENCY"; "CONSISTENT"; "CONSTRAINT";
   "CONSTRAINTS"; "CONSTRUCTOR"; "CONSUMED"; "CONTINUE"; "CONVERT"; "COPY";
   "CORRESPONDING"; "COUNT"; "COUNTER"; "CREATE"; "CROSS"; "CUBE";
   "CURRENT"; "CURSOR"; "CYCLE"; "DATA"; "DATABASE"; "DATE"; "DATETIME";
   "DAY"; "DEALLOCATE"; "DEC"; "DECIMAL"; "DECLARE"; "DEFAULT";
   "DEFERRABLE"; "DEFERRED"; "DEFINE"; "DEFINED"; "DEFINITION"; "DELETE";
   "DELIMITED"; "DEPTH"; "DEREF"; "DESC"; "DESCRIBE"; "DESCRIPTOR";
   "DETACH"; "DETERMINISTIC"; "DIAGNOSTICS"; "DIRECTORIES"; "DISABLE";
   "DISCONNECT"; "DISTINCT"; "DISTRIBUTE"; "DO"; "DOMAIN"; "DOUBLE"; "DROP";
   "DUMP"; "DURATION"; "DYNAMIC"; "EACH"; "ELEMENT"; "ELSE"; "ELSEIF";
   "EMPTY"; "ENABLE"; "END"; "EQUAL"; "EQUALS"; "ERROR"; "ESCAPE";
   "ESCAPED"; "EVAL"; "EVALUATE"; "EXCEEDED"; "EXCEPT"; "EXCEPTION";
   "EXCEPTIONS"; "EXCLUSIVE"; "EXEC"; "EXECUTE"; "EXISTS"; "EXIT";
   "EXPLAIN"; "EXPLODE"; "EXPORT"; "EXPRESSION"; "EXTENDED"; "EXTERNAL";
   "EXTRACT"; "FAIL"; "FALSE"; "FAMILY"; "FETCH"; "FIELDS"; "FILE";
   "FILTER"; "FILTERING"; "FINAL"; "FINISH"; "FIRST"; "FIXED"; "FLATTERN";
   "FLOAT"; "FOR"; "FORCE"; "FOREIGN"; "FORMAT"; "FORWARD"; "FOUND"; "FREE";
   "FROM"; "FULL"; "FUNCTION"; "FUNCTIONS"; "GENERAL"; "GENERATE"; "GET";
   "GLOB"; "GLOBAL"; "GO"; "GOTO"; "GRANT"; "GREATER"; "GROUP"; "GROUPING";
   "HANDLER"; "HASH"; "HAVE"; "HAVING"; "HEAP"; "HIDDEN"; "HOLD"; "HOUR";
   "IDENTIFIED"; "IDENTITY"; "IF"; "IGNORE"; "IMMEDIATE"; "IMPORT"; "IN";
   "INCLUDING"; "INCLUSIVE"; "INCREMENT"; "INCREMENTAL"; "INDEX"; "INDEXED";
   "INDEXES"; "INDICATOR"; "INFINITE"; "INITIALLY"; "INLINE"; "INNER";
   "INNTER"; "INOUT"; "INPUT"; "INSENSITIVE"; "INSERT"; "INSTEAD"; "INT";
   "INTEGER"; "INTERSECT"; "INTERVAL"; "INTO"; "INVALIDATE"; "IS";
   "ISOLATION"; "ITEM"; "ITEMS"; "ITERATE"; "JOIN"; "KEY"; "KEYS"; "LAG";
   "LANGUAGE"; "LARGE"; "LAST"; "LATER"; "LATERAL"; "LEAD"; "LEADING";
   "LEAVE"; "LEFT"; "LENGTH"; "LESS"; "LEVEL"; "LIKE"; "LIMIT"; "LIMITED";
   "LINES"; "LIST"; "LOAD"; "LOCAL"; "LOCALTIME"; "LOCALTIMESTAMP";
   "LOCATION"; "LOCATOR"; "LOCK"; "LOCKS"; "LOG"; "LOGED"; "LONG"; "LOOP";
   "LOWER"; "MAP"; "MATCH"; "MATERIALIZED"; "MAX"; "MAXLEN"; "MEMBER";
   "MERGE"; "METHOD"; "METRICS"; "MIN"; "MINUS"; "MINUTE"; "MISSING"; "MOD";
   "MODE"; "MODIFIES"; "MODIFY"; "MODULE"; "MONTH"; "MULTI"; "MULTISET";
   "NAME"; "NAMES"; "NATIONAL"; "NATURAL"; "NCHAR"; "NCLOB"; "NEW"; "NEXT";
   "NO"; "NONE"; "NOT"; "NULL"; "NULLIF"; "NUMBER"; "NUMERIC"; "OBJECT";
   "OF"; "OFFLINE"; "OFFSET"; "OLD"; "ON"; "ONLINE"; "ONLY"; "OPAQUE";
   "OPEN"; "OPERATOR"; "OPTION"; "OR"; "ORDER"; "ORDINALITY"; "OTHER";
   "OTHERS"; "OUT"; "OUTER"; "OUTPUT"; "OVER"; "OVERLAPS"; "OVERRIDE";
   "OWNER"; "PAD"; "PARALLEL"; "PARAMETER"; "PARAMETERS"; "PARTIAL";
   "PARTITION"; "PARTITIONED"; "PARTITIONS"; "PATH"; "PERCENT";
   "PERCENTILE"; "PERMISSION"; "PERMISSIONS"; "PIPE"; "PIPELINED"; "PLAN";
   "POOL"; "POSITION"; "PRECISION"; "PREPARE"; "PRESERVE"; "PRIMARY";
   "PRIOR"; "PRIVATE"; "PRIVILEGES"; "PROCEDURE"; "PROCESSED"; "PROJECT";
   "PROJECTION"; "PROPERTY"; "PROVISIONING"; "PUBLIC"; "PUT"; "QUERY";
   "QUIT"; "QUORUM"; "RAISE"; "RANDOM"; "RANGE"; "RANK"; "RAW"; "READ";
   "READS"; "REAL"; "REBUILD"; "RECORD"; "RECURSIVE"; "REDUCE"; "REF";
   "REFERENCE"; "REFERENCES"; "REFERENCING"; "REGEXP"; "REGION"; "REINDEX";
   "RELATIVE"; "RELEASE"; "REMAINDER"; "RENAME"; "REPEAT"; "REPLACE";
   "REQUEST"; "RESET"; "RESIGNAL"; "RESOURCE"; "RESPONSE"; "RESTORE";
   "RESTRICT"; "RESULT"; "RETURN"; "RETURNING"; "RETURNS"; "REVERSE";
   "REVOKE"; "RIGHT"; "ROLE"; "ROLES"; "ROLLBACK"; "ROLLUP"; "ROUTINE";
   "ROW"; "ROWS"; "RULE"; "RULES"; "SAMPLE"; "SATISFIES"; "SAVE";
   "SAVEPOINT"; "SCAN"; "SCHEMA"; "SCOPE"; "SCROLL"; "SEARCH"; "SECOND";
   "SECTION"; "SEGMENT"; "SEGMENTS"; "SELECT"; "SELF"; "SEMI"; "SENSITIVE";
   "SEPARATE"; "SEQUENCE"; "SERIALIZABLE"; "SESSION"; "SET"; "SETS";
   "SHARD"; "SHARE"; "SHARED"; "SHORT"; "SHOW"; "SIGNAL"; "SIMILAR"; "SIZE";
   "SKEWED"; "SMALLINT"; "SNAPSHOT"; "SOME"; "SOURCE"; "SPACE"; "SPACES";
   "SPARSE"; "SPECIFIC"; "SPECIFICTYPE"; "SPLIT"; "SQL"; "SQLCODE";
   "SQLERROR"; "SQLEXCEPTION"; "SQLSTATE"; "SQLWARNING"; "START"; "STATE";
   "STATIC"; "STATISTICS"; "STATUS"; "STORE"; "STORED"; "STREAM"; "STRING";
   "STRUCT"; "STYLE"; "SUB"; "SUBMULTISET"; "SUBPARTITION"; "SUBSTRING";
   "SUBTYPE"; "SUM"; "SUPER"; "SYMMETRIC"; "SYNONYM"; "SYSTEM"; "TABLE";
   "TABLESAMPLE"; "TEMP"; "TEMPORARY"; "TERMINATED"; "TEXT"; "THAN"; "THEN";
   "THROUGHPUT"; "TIME"; "TIMESTAMP"; "TIMEZONE"; "TINYINT"; "TO"; "TOKEN";
   "TOTAL"; "TOUCH"; "TRAILING"; "TRANSACTION"; "TRANSFORM"; "TRANSLATE";
   "TRANSLATION"; "TREAT"; "TRIGGER"; "TRIM"; "TRUE"; "TRUNCATE"; "TTL";
   "TUPLE"; "TYPE"; "UNDER"; "UNDO"; "UNION"; "UNIQUE"; "UNIT"; "UNKNOWN";
   "UNLOGGED"; "UNNEST"; "UNPROCESSED"; "UNSIGNED"; "UNTIL"; "UPDATE";
   "UPPER"; "URL"; "USAGE"; "USE"; "USER"; "USERS"; "USING"; "UUID";
   "VACUUM"; "VALUE"; "VALUED"; "VALUES"; "VARCHAR"; "VARIABLE"; "VARIANCE";
   "VARINT"; "VARYING"; "VIEW"; "VIEWS"; "VIRTUAL"; "VOID"; "WAIT"; "WHEN";
   "WHENEVER"; "WHERE"; "WHILE"; "WINDOW"; "WITH"; "WITHIN"; "WITHOUT";
   "WORK"; "WRAPPED"; "WRITE"; "YEAR"; "ZONE"].

Definition is_reserved (s : string) : bool :=
  bool_decide (uppercase s ∈ reserved_words).

(** Modelled from the spec: an update sets the attributes assigned in the
    expression, on the record of the key pair given, and asked for
    [UPDATED_NEW] answers the new values of these attributes only; on a key
    pair that has no record it is an error, and so are a malformed
    expression, an attribute name that the service reserves (given by
    [reserved]), a placeholder without value and an assignment to a key
    attribute. *)
Definition update_item_with (reserved : string → bool) (t : string)
    (key : item) (expr : string) (eav : item) (rv : string) (w : db)
  : result response * db :=
  match w !! t with
  | None => (not_found, w)
  | Some td =>
      match key_of key with
      | None => (validation "Missing or mistyped key attribute", w)
      | Some k =>
          match parse_set expr with
          | None => (validation "Invalid UpdateExpression: Syntax error", w)
          | Some asg =>
              if negb (forallb (λ p, negb (reserved p.1)) asg) then
                (validation "Invalid UpdateExpression: Attribute name is a reserved keyword", w)
              else
              match mapM (λ '(a, ph), v ← eav !! ph; Some (a, v)) asg with
              | None => (validation "An expression attribute value used in expression is not defined", w)
              | Some sets =>
                  if bool_decide (NoDup (sets.*1) ∧ ("user_id" ∉ sets.*1) ∧
                                  ("full_name" ∉ sets.*1) ∧
                                  Exists (λ r, has_key k r = true) (records td))
                  then
                    let upd (r : item) : item :=
                      if has_key k r
                      then foldl (λ r '(a, v), <[a := v]> r) r sets
                      else r in
                    (Ok (if bool_decide (rv = "UPDATED_NEW")
                         then <["Attributes" := Attributes (list_to_map sets)]>
                                metadata
                         else metadata),
                     <[t := TableData (upd <$> records td) (indexes td)]> w)
                  else (validation "The update cannot be applied", w)
              end
          end
      end
  end.

Definition update_item : string → item → string → item → string → db →
                         result response * db :=
  update_item_with is_reserved.

(** Modelled from the spec: deleting by key pair removes the record, and
    succeeds as well when there is none. *)
Definition delete_item (t : string) (key : item) (w : db)
  : result response * db :=
  match w !! t with
  | None => (not_found, w)
  | Some td =>
      match key_of key with
      | None => (validation "Missing or mistyped key attribute", w)
      | Some k =>
          (Ok metadata,
           <[t := TableData (filter (λ r, has_key k r = false) (records td))
                   (indexes td)]> w)
      end
  end.

(** Modelled from the spec: the remote service contract of section 6, for a
    service that reserves the attribute names [reserved]. *)
Definition service_with (reserved : string → bool) : Service db := {|
  svc_load := load;
  svc_tables_all := tables_all;
  svc_create_table := create_table;
  svc_wait_until_exists := wait_until_exists;
  svc_delete := delete;
  svc_put_item := put_item;
  svc_query := query;
  svc_update_item := update_item_with reserved;
  svc_delete_item := delete_item
|}.

Definition service : Service db := service_with is_reserved.

(** *** Worlds and objects to run the methods on *)

(** No table at all. *)
Definition no_table : db := ∅.

(** The table "users" with the given records and the index [name-index] on
    the attribute [name]. *)
Definition users_table (rs : list item) : db :=
  {[ "users" := TableData rs [("name-index", "name")] ]}.

(** A [Users] object just built, in the world [w], by a process that has
    neither credential in its environment. *)
Definition fresh (w : db) : state db :=
  State w {| aws_access_key_id := None; aws_secret_access_key := None;
             region_name := "us-east-1" |}
    (Some "users") [] [] [].

End Reference.

(** The records of Ann Lee and Bob Ray, under [u1], and of Cy Dow, under
    [u2]; an object whose table holds the record of Ann Lee. *)
Definition ann : item := Users.key_item (VStr "u1") (VStr "Ann Lee").
Definition bob : item := Users.key_item (VStr "u1") (VStr "Bob Ray").
Definition cy : item := Users.key_item (VStr "u2") (VStr "Cy Dow").

Definition with_ann : state Reference.db :=
  Reference.fresh (Reference.users_table [ann]).

(** ** The vocabulary of the specifications *)

(** The messages the table-management methods log. *)
Definition exists_message (Code Message : string) : string :=
  "Couldn't check for existence of users. Here's why: " +:+ Code +:+ ": "
  +:+ Message.

Definition list_tables_message (Code Message : string) : string :=
  "Couldn't list tables. Here's why: " +:+ Code +:+ ": " +:+ Message.

Definition create_table_message (table_name Code Message : string) : string :=
  "Couldn't create table " +:+ table_name +:+ ". Here's why: " +:+ Code +:+
  ": " +:+ Message.

Definition delete_table_message (Code Message : string) : string :=
  "Couldn't delete table. Here's why: " +:+ Code +:+ ": " +:+ Message.

(** The request [create_table] sends for a table called [table_name]. *)
Definition create_table_request (table_name : string) : request :=
  ReqCreateTable table_name
    [KeySchemaElement "user_id" "HASH"; KeySchemaElement "full_name" "RANGE"]
    [AttributeDefinition "user_id" "S"; AttributeDefinition "full_name" "S"]
    "PAY_PER_REQUEST".

(** The assignment [k=:k] of a field. *)
Definition assignment (k : string) : string := k +:+ "=:" +:+ k.

(** The binding of [:k] to [v], for a field [k] given with the value [v]. *)
Definition placeholder (kv : string * value) : string * value :=
  (":" +:+ kv.1, kv.2).

(** The update expression of a field mapping. *)
Definition set_expression (kwargs : list (string * value)) : string :=
  "set " +:+ String.concat ", " (assignment <$> kwargs.*1).

(** The value map of a field mapping. *)
Definition value_map (kwargs : list (string * value)) : item :=
  list_to_map (placeholder <$> kwargs).

(** What a record-level method does with the exception [e] of its body: it
    prints the traceback and returns the sentinel. *)
Definition swallowed {W A} (c : M W A) (st : state W) (sentinel : A)
    (prefix : option string) (e : exn) : Prop :=
  (c st).1 = Ok sentinel ∧
  stdout (c st).2 = stdout st ++ [OutTraceback prefix e] ∧
  log (c st).2 = log st ∧ table (c st).2 = table st.

(** What a table-management method does with a provider error: it logs the
    message and raises the error again. *)
Definition reraised {W A} (c : M W A) (st : state W) (msg : string)
    (e : exn) : Prop :=
  (c st).1 = Raise e ∧ log (c st).2 = log st ++ [msg].

(** A method that never raises. *)
Definition never_raises {W A} (c : M W A) : Prop :=
  ∀ st, ∃ v, (c st).1 = Ok v.

(** The run of a query method that sends the condition [cond] on the index
    [index]. *)
Definition query_run {W} (svc : Service W) (st : state W)
    (query : M W (option field)) (index : option string) (cond : condition)
  : Prop :=
  match table st with
  | Some t =>
      calls (query st).2 = calls st ++ [ReqQuery t index cond] ∧
      match (svc_query svc t index cond (world st)).1 with
      | Ok resp =>
          match resp !! "Items" with
          | Some items => (query st).1 = Ok (Some items) ∧
                          stdout (query st).2 = stdout st
          | None => swallowed query st None (Some "ERROR: ") (KeyError "Items")
          end
      | Raise e => swallowed query st None (Some "ERROR: ") e
      end
  | None =>
      calls (query st).2 = calls st ∧
      swallowed query st None (Some "ERROR: ") (AttributeError "query")
  end.

(** [add_user(user_id, full_name)] followed by [query_by_user_id(user_id)],
    on the reference service. *)
Definition add_then_query (user_id full_name : value)
  : M Reference.db (option field) :=
  let* _ := Users.add_user Reference.service user_id full_name in
  Users.query_by_user_id Reference.service user_id.

(** The records a table holds under a [user_id]. *)
Definition stored_under (u : string) (td : Reference.table_data) : list item :=
  filter (λ r, Reference.has_attr "user_id" (VStr u) r = true)
    (Reference.records td).

(** The pair is the key of no record of the table. *)
Definition absent (u f : string) (td : Reference.table_data) : Prop :=
  ∀ r, r ∈ Reference.records td → Reference.key_of r ≠ Some (u, f).

(** ** A service that cannot be reached *)

Module Offline.

(** The exception of a connection that fails; it is no provider error. *)
Definition unreachable : exn := OtherException "EndpointConnectionError".

(** Every remote operation fails, and nothing changes. *)
Definition service : Service () := {|
  svc_load := λ _ w, (Raise unreachable, w);
  svc_tables_all := λ w, (([], Some unreachable), w);
  svc_create_table := λ _ _ _ _ w, (Raise unreachable, w);
  svc_wait_until_exists := λ _ w, (Raise unreachable, w);
  svc_delete := λ _ w, (Raise unreachable, w);
  svc_put_item := λ _ _ w, (Raise unreachable, w);
  svc_query := λ _ _ _ w, (Raise unreachable, w);
  svc_update_item := λ _ _ _ _ _ w, (Raise unreachable, w);
  svc_delete_item := λ _ _ w, (Raise unreachable, w)
|}.

(** A [Users] object just built, with no service in reach. *)
Definition fresh : state () :=
  State () {| aws_access_key_id := None; aws_secret_access_key := None;
              region_name := "us-east-1" |}
    (Some "users") [] [] [].

End Offline.

(** ** [utils/global_variables.py] and the construction of an object *)

(** [os.environ] and the content of a [.env] file. *)
Abbreviation environment := (gmap string string).

(** [load_dotenv()]: the variables of the [.env] file are added to the
    environment; a variable the environment has already keeps its value (the
    call passes no [override]). *)
Definition load_dotenv (dotenv environ : environment) : environment :=
  environ ∪ dotenv.

(** [os.getenv(key, default)] *)
Definition getenv (environ : environment) (key : string)
    (default : option string) : option string :=
  match environ !! key with
  | Some v => Some v
  | None => default
  end.

(** The two module constants, set when the module is imported. *)
Definition AWS_ACCESS_KEY_ID (dotenv environ : environment) : option string :=
  getenv (load_dotenv dotenv environ) "AWS_ACCESS_KEY_ID" None.

Definition AWS_SECRET_ACCESS_KEY (dotenv environ : environment)
  : option string :=
  getenv (load_dotenv dotenv environ) "AWS_SECRET_ACCESS_KEY" None.

(** [Users()] in a process started with the environment [environ] and the
    file [dotenv], the remote service being in the world [w]. *)
Definition new_Users {W} (dotenv environ : environment) (w : W)
  : result (state W) :=
  Users.init (AWS_ACCESS_KEY_ID dotenv environ)
    (AWS_SECRET_ACCESS_KEY dotenv environ) w.

(** ** Frames *)

(** The state [st] with [self.table] set to [t]. *)
Definition bound_to {W} (t : option string) (st : state W) : state W :=
  State (world st) (dyn_resource st) t (log st) (stdout st) (calls st).

(** A method that leaves [self.table] and [self.dyn_resource] alone. *)
Definition keeps_binding {W A} (c : M W A) : Prop :=
  ∀ st, table (c st).2 = table st ∧ dyn_resource (c st).2 = dyn_resource st.

(** A method that writes nothing to the logger. *)
Definition keeps_log {W A} (c : M W A) : Prop :=
  ∀ st, log (c st).2 = log st.

(** A method that prints nothing. *)
Definition keeps_stdout {W A} (c : M W A) : Prop :=
  ∀ st, stdout (c st).2 = stdout st.

(** A method that makes at most [n] calls to the client library.  A call is
    one request for the record-level operations; the pass over the collection
    of tables sends one request per page, and the wait polls the service. *)
Definition sends_at_most {W A} (n : nat) (c : M W A) : Prop :=
  ∀ st, ∃ rqs, calls (c st).2 = calls st ++ rqs ∧ (length rqs ≤ n)%nat.

(** The frame of a record-level method: it leaves the fields of the object
    alone, writes nothing to the logger and sends one request at most. *)
Definition record_frame {W A} (c : M W A) : Prop :=
  keeps_binding c ∧ keeps_log c ∧ sends_at_most 1 c.

(** Whether an exception is left to the caller by the handlers of the
    table-management methods. *)
Definition passes_unlogged {W A} (c : M W A) (st : state W) (e : exn) : Prop :=
  (c st).1 = Raise e ∧ log (c st).2 = log st.

(** A field that an update expression of the reference service may assign
    under its own name: a plain name, which the service does not reserve and
    which is none of the two key attributes. *)
Definition field_ok (reserved : string → bool) (k : string) : Prop :=
  Reference.valid_name k = true ∧ reserved k = false ∧
  k ≠ "user_id" ∧ k ≠ "full_name".

(** A record once the fields [kwargs] are set in it. *)
Definition updated (kwargs : list (string * value)) (r : item) : item :=
  list_to_map kwargs ∪ r.

(** No record of the service has an attribute [name]. *)
Definition name_free (w : Reference.db) : Prop :=
  ∀ t td r, w !! t = Some td → r ∈ Reference.records td → r !! "name" = None.

(** * Properties *)

Create HintDb monad_ops.
#[global] Hint Unfold ret raise bind try_except try_except_else get_table
  set_table logger_error print remote self_table getitem : monad_ops.

(** Closes the clauses of a specification once the method has been run. *)
Ltac clauses :=
  repeat split; intros; subst; simpl in *;
  repeat match goal with
    | H : ∃ _, _ |- _ => destruct H
    | H : _ ∧ _ |- _ => destruct H
    end;
  simplify_eq/=; try done; eauto.

(** ** The requests: key pairs, expressions and value maps *)

Lemma key_item_user_id (user_id full_name : value) :
  Users.key_item user_id full_name !! "user_id" = Some user_id.
Proof. unfold Users.key_item. by simplify_map_eq. Qed.

Lemma key_item_full_name (user_id full_name : value) :
  Users.key_item user_id full_name !! "full_name" = Some full_name.
Proof. unfold Users.key_item. by simplify_map_eq. Qed.

Lemma key_item_other (user_id full_name : value) (a : string) :
  a ≠ "user_id" → a ≠ "full_name" →
  Users.key_item user_id full_name !! a = None.
Proof. intros. unfold Users.key_item. by simplify_map_eq. Qed.

Lemma key_item_dom (user_id full_name : value) :
  dom (Users.key_item user_id full_name) = ({["user_id"; "full_name"]} : gset string).
Proof. unfold Users.key_item. rewrite !dom_insert_L. set_solver. Qed.

Lemma key_of_key_item (u f : string) :
  Reference.key_of (Users.key_item (VStr u) (VStr f)) = Some (u, f).
Proof.
  unfold Reference.key_of.
  by rewrite key_item_user_id, key_item_full_name.
Qed.

Lemma for_kwargs_spec (kwargs : list (string * value)) (ue : list string)
    (ea : item) :
  Users.for_kwargs kwargs ue ea =
    (ue ++ (assignment <$> kwargs.*1),
     foldl (λ m kv, <[":" +:+ kv.1 := kv.2]> m) ea kwargs).
Proof.
  revert ue ea. induction kwargs as [|[k v] kwargs IH]; intros ue ea; simpl.
  - by rewrite app_nil_r.
  - rewrite IH. by rewrite <- app_assoc.
Qed.

Lemma placeholder_fst_elem (k : string) (kwargs : list (string * value)) :
  ":" +:+ k ∈ (placeholder <$> kwargs).*1 ↔ k ∈ kwargs.*1.
Proof.
  rewrite !list_elem_of_fmap. split.
  - intros (x & Hp & ([k' v'] & -> & Hin)%list_elem_of_fmap).
    simplify_eq/=. by exists (k', v').
  - intros ([k' v] & -> & Hin). exists (":" +:+ k', v). split; [done|].
    apply list_elem_of_fmap. by exists (k', v).
Qed.

(** The dict the loop fills is the value map, the fields being distinct as
    the keys of [kwargs] are. *)
Lemma value_map_fold (kwargs : list (string * value)) :
  NoDup (kwargs.*1) →
  foldl (λ m kv, <[":" +:+ kv.1 := kv.2]> m) (∅ : item) kwargs =
    value_map kwargs.
Proof.
  unfold value_map.
  induction kwargs as [|[k v] kwargs IH] using rev_ind; intros Hnd; [done|].
  rewrite fmap_app in Hnd. apply NoDup_app in Hnd as (Hnd & Hk & _).
  rewrite foldl_snoc, fmap_app, IH by done. simpl.
  unfold placeholder at 3. simpl. rewrite list_to_map_snoc; [done|].
  rewrite placeholder_fst_elem. intros Hin. apply (Hk k Hin). simpl. left.
Qed.

(** Each field is bound, under its placeholder, to the value supplied. *)
Lemma value_map_lookup (kwargs : list (string * value)) (k : string) (v : value) :
  NoDup (kwargs.*1) →
  (k, v) ∈ kwargs ↔ value_map kwargs !! (":" +:+ k) = Some v.
Proof.
  intros Hnd. unfold value_map. rewrite <- elem_of_list_to_map.
  - rewrite list_elem_of_fmap. split.
    + intros Hin. by exists (k, v).
    + intros ([k' v'] & Heq & Hin). unfold placeholder in Heq. simpl in Heq.
      by simplify_eq.
  - clear k v. induction kwargs as [|[k v] kwargs IH]; csimpl; [constructor|].
    apply NoDup_cons in Hnd as [Hk Hnd]. constructor; [|by apply IH].
    by rewrite placeholder_fst_elem.
Qed.

(** Nothing else is bound. *)
Lemma value_map_dom (kwargs : list (string * value)) (p : string) :
  p ∈ dom (value_map kwargs) ↔ ∃ k, k ∈ kwargs.*1 ∧ p = ":" +:+ k.
Proof.
  unfold value_map. rewrite dom_list_to_map_L, elem_of_list_to_set. split.
  - intros ([q v] & -> & ([k v'] & Heq & Hin)%list_elem_of_fmap)%list_elem_of_fmap.
    unfold placeholder in Heq. simplify_eq/=. exists k. split; [|done].
    apply list_elem_of_fmap. by exists (k, v').
  - intros (k & Hin & ->). by apply placeholder_fst_elem.
Qed.

Example set_expression_two_fields :
  set_expression [("email", VStr "ann@example.org"); ("age", VInt 30)] =
    "set email=:email, age=:age".
Proof. reflexivity. Qed.

Example set_expression_no_field : set_expression [] = "set ".
Proof. reflexivity. Qed.

Lemma string_app_length (a b : string) :
  String.length (a +:+ b) = (String.length a + String.length b)%nat.
Proof. induction a as [|c a IH]; simpl; [done|]. by rewrite IH. Qed.

Lemma string_app_inj_length (a b c d : string) :
  String.length a = String.length c → a +:+ b = c +:+ d → a = c ∧ b = d.
Proof.
  revert c. induction a as [|x a IH]; intros [|y c] Hlen Heq;
    simpl in *; try discriminate; [done|].
  injection Hlen as Hlen. injection Heq as -> Heq.
  by destruct (IH c Hlen Heq) as [-> ->].
Qed.

(** Different fields have different assignments. *)
Lemma assignment_inj (k k' : string) : assignment k = assignment k' → k = k'.
Proof.
  unfold assignment. intros Heq.
  assert (Hlen : String.length k = String.length k').
  { apply (f_equal String.length) in Heq.
    rewrite !string_app_length in Heq. simpl in Heq. lia. }
  by apply string_app_inj_length in Heq as [-> _].
Qed.

(** [update_user] assigns the fields it is given, and no other attribute. *)
Lemma update_user_assigns (kwargs : list (string * value)) (k : string) :
  assignment k ∈ (Users.for_kwargs kwargs [] ∅).1 ↔ k ∈ kwargs.*1.
Proof.
  rewrite for_kwargs_spec. simpl. rewrite list_elem_of_fmap. split.
  - by intros (k' & ->%assignment_inj & Hin).
  - intros Hin. by exists k.
Qed.

(** ** The runs of the methods *)

Section RunProperties.
Context {W : Type} (svc : Service W) (st : state W).

Lemma for_tables_run (yielded tables : list string) (st0 : state W) :
  Users.for_tables yielded tables st0 =
    (Ok (tables ++ yielded),
     State (world st0) (dyn_resource st0) (table st0) (log st0)
       (stdout st0 ++ (OutLine <$> yielded)) (calls st0)).
Proof.
  revert tables st0. induction yielded as [|t yielded IH]; intros tables st0.
  - simpl. unfold ret. rewrite !app_nil_r. by destruct st0.
  - simpl. autounfold with monad_ops. simpl. rewrite IH. simpl.
    by rewrite <- !app_assoc.
Qed.

Lemma list_tables_run :
  let r := (Users.list_tables svc st).1 in
  let st' := (Users.list_tables svc st).2 in
  let yielded := (svc_tables_all svc (world st)).1.1 in
  calls st' = calls st ++ [ReqTablesAll] ∧
  stdout st' = stdout st ++ (OutLine <$> yielded) ∧
  table st' = table st ∧
  match (svc_tables_all svc (world st)).1.2 with
  | None => r = Ok yielded ∧ log st' = log st
  | Some (ClientError Code Message) =>
      r = Raise (ClientError Code Message) ∧
      log st' = log st ++ [list_tables_message Code Message]
  | Some e => r = Raise e ∧ log st' = log st
  end.
Proof.
  unfold Users.list_tables. autounfold with monad_ops; simpl.
  destruct (svc_tables_all svc (world st)) as [[yielded stop] w]; simpl.
  rewrite for_tables_run. simpl.
  destruct stop as [[]|]; simpl; by repeat split.
Qed.

Context (user_id full_name : value).

Lemma query_by_user_id_run :
  query_run svc st (Users.query_by_user_id svc user_id) None
    (KeyEq "user_id" user_id).
Proof.
  unfold query_run, Users.query_by_user_id, swallowed.
  autounfold with monad_ops; simpl.
  destruct (table st) as [t|] eqn:Ht; simpl; [|by repeat split].
  destruct (svc_query svc t None (KeyEq "user_id" user_id) (world st))
    as [[resp|e] w]; simpl; [|by repeat split].
  destruct (resp !! "Items"); simpl; by repeat split.
Qed.

Lemma query_by_user_name_run (name : value) :
  query_run svc st (Users.query_by_user_name svc name) (Some "name-index")
    (KeyEq "name" name).
Proof.
  unfold query_run, Users.query_by_user_name, swallowed.
  autounfold with monad_ops; simpl.
  destruct (table st) as [t|] eqn:Ht; simpl; [|by repeat split].
  destruct (svc_query svc t (Some "name-index") (KeyEq "name" name) (world st))
    as [[resp|e] w]; simpl; [|by repeat split].
  destruct (resp !! "Items"); simpl; by repeat split.
Qed.

Lemma add_user_run :
  let add := Users.add_user svc user_id full_name in
  match table st with
  | Some t =>
      match (svc_put_item svc t (Users.key_item user_id full_name)
               (world st)).1 with
      | Ok resp => (add st).1 = Ok (Some resp)
      | Raise e => swallowed add st None (Some "ERROR: ") e
      end
  | None => swallowed add st None (Some "ERROR: ") (AttributeError "put_item")
  end.
Proof.
  unfold Users.add_user, swallowed. autounfold with monad_ops; simpl.
  destruct (table st) as [t|] eqn:Ht; simpl; [|by repeat split].
  destruct (svc_put_item svc t (Users.key_item user_id full_name) (world st))
    as [[resp|e] w]; simpl; by repeat split.
Qed.

Lemma update_user_run (kwargs : list (string * value)) :
  let Key := Users.key_item user_id full_name in
  let update := Users.update_user svc user_id full_name kwargs in
  NoDup (kwargs.*1) →
  match table st with
  | Some t =>
      calls (update st).2 = calls st ++
        [ReqUpdateItem t Key (set_expression kwargs) (value_map kwargs)
           "UPDATED_NEW"] ∧
      match (svc_update_item svc t Key (set_expression kwargs)
               (value_map kwargs) "UPDATED_NEW" (world st)).1 with
      | Ok resp =>
          match resp !! "Attributes" with
          | Some a => (update st).1 = Ok (Some a) ∧
                      stdout (update st).2 = stdout st
          | None => swallowed update st None None (KeyError "Attributes")
          end
      | Raise e => swallowed update st None None e
      end
  | None =>
      calls (update st).2 = calls st ∧
      swallowed update st None None (AttributeError "update_item")
  end.
Proof.
  intros Key update Hnd. subst Key update.
  unfold Users.update_user, swallowed.
  rewrite for_kwargs_spec, value_map_fold by done. simpl.
  fold (set_expression kwargs).
  autounfold with monad_ops; simpl.
  destruct (table st) as [t|] eqn:Ht; simpl; [|by repeat split].
  destruct (svc_update_item svc t (Users.key_item user_id full_name)
              (set_expression kwargs) (value_map kwargs) "UPDATED_NEW"
              (world st)) as [[resp|e] w]; simpl; [|by repeat split].
  destruct (resp !! "Attributes"); simpl; by repeat split.
Qed.

(** The handler of [delete_user_by_id] takes provider errors only. *)
Lemma delete_user_by_id_run :
  let del := Users.delete_user_by_id svc user_id full_name in
  match table st with
  | Some t =>
      calls (del st).2 =
        calls st ++ [ReqDeleteItem t (Users.key_item user_id full_name)] ∧
      match (svc_delete_item svc t (Users.key_item user_id full_name)
               (world st)).1 with
      | Ok _ => (del st).1 = Ok true ∧ stdout (del st).2 = stdout st
      | Raise (ClientError Code Message) =>
          swallowed del st false (Some "Error: ") (ClientError Code Message)
      | Raise e => (del st).1 = Raise e ∧ stdout (del st).2 = stdout st
      end
  | None => del st = (Raise (AttributeError "delete_item"), st)
  end.
Proof.
  unfold Users.delete_user_by_id, swallowed. autounfold with monad_ops; simpl.
  destruct (table st) as [t|] eqn:Ht; simpl; [|done].
  destruct (svc_delete_item svc t (Users.key_item user_id full_name) (world st))
    as [[resp|[]] w]; simpl; by repeat split.
Qed.
End RunProperties.

(** A [try] whose only handler is [except Exception], printing the traceback
    and returning the sentinel, never raises. *)
Lemma catch_all_never_raises {W A} (body : M W A) (sentinel : A)
    (prefix : option string) :
  never_raises
    (try_except body
       (λ err, Some (let* _ := print (OutTraceback prefix err) in ret sentinel))).
Proof.
  intros st. autounfold with monad_ops.
  destruct (body st) as [[a|e] st1]; simpl; eauto.
Qed.

(** ** Table management *)

Section TableManagement.
Context {W : Type} (svc : Service W) (st : state W).


(** C4. [exists()] returns false exactly when loading the table raised a
    provider error whose code is [ResourceNotFoundException]; when the load
    succeeds it returns true and binds [self.table] to the table "users";
    any other provider error is logged and raised again; and [self.table]
    is left as it was whenever the load raised, so it changes on the
    success path only. *)
Theorem exists_spec :
  let answer := (svc_load svc "users" (world st)).1 in
  let r := (Users.exists_ svc st).1 in
  let st' := (Users.exists_ svc st).2 in
  (r = Ok false ↔
     ∃ Message, answer = Raise (ClientError "ResourceNotFoundException" Message)) ∧
  (answer = Ok () → r = Ok true ∧ table st' = Some "users" ∧ log st' = log st) ∧
  (∀ Code Message,
     answer = Raise (ClientError Code Message) →
     Code ≠ "ResourceNotFoundException" →
     r = Raise (ClientError Code Message) ∧
     log st' = log st ++ [exists_message Code Message]) ∧
  (∀ e, answer = Raise e → table st' = table st) ∧
  (table st' ≠ table st → answer = Ok ()).
Proof.
  unfold Users.exists_, Users.Table.
  autounfold with monad_ops; simpl.
  destruct (svc_load svc "users" (world st)) as [[[]|e] w]; simpl.
  - clauses.
  - assert (Hcases :
      (∃ m, e = ClientError "ResourceNotFoundException" m) ∨
      (∃ c m, e = ClientError c m ∧ c ≠ "ResourceNotFoundException") ∨
      is_ClientError e = false).
    { destruct e as [c m| | |]; simpl; auto.
      destruct (String.eqb_spec c "ResourceNotFoundException") as [->|Hc].
      - left. by exists m.
      - right; left. by exists c, m. }
    destruct Hcases as [[m ->]|[(c & m & -> & Hc)|Hnc]]; simpl.
    + clauses.
    + apply String.eqb_neq in Hc as Hc'. rewrite Hc'. simpl. clauses.
    + destruct e; simpl in *; try discriminate; clauses.
Qed.

(** C5. [create_table(name)] first requests a table with partition key
    [user_id] and sort key [full_name], both of string type, under
    [PAY_PER_REQUEST] billing.  It returns a table only after the wait for
    the existence of the created table has come back without an exception, and
    then [self.table] and the value returned are that table, and the service
    is left as the creation followed by the wait leaves it.  A provider
    error of the creation or of the wait is logged and raised again. *)
Theorem create_table_spec (table_name : string) :
  let created :=
    svc_create_table svc table_name Users.KeySchema Users.AttributeDefinitions
      "PAY_PER_REQUEST" (world st) in
  let r := (Users.create_table svc table_name st).1 in
  let st' := (Users.create_table svc table_name st).2 in
  (∃ rest, calls st' = calls st ++ create_table_request table_name :: rest) ∧
  (∀ v, r = Ok v →
     ∃ t, created.1 = Ok t ∧
          (svc_wait_until_exists svc t created.2).1 = Ok () ∧
          calls st' = calls st ++
            [create_table_request table_name; ReqWaitUntilExists t] ∧
          world st' = (svc_wait_until_exists svc t created.2).2 ∧
          table st' = Some t ∧ v = Some t) ∧
  (∀ t, created.1 = Ok t →
        world st' = (svc_wait_until_exists svc t created.2).2) ∧
  (∀ e, created.1 = Raise e → world st' = created.2) ∧
  (∀ t, created.1 = Ok t →
        (svc_wait_until_exists svc t created.2).1 = Ok () →
        r = Ok (Some t) ∧ table st' = Some t) ∧
  (∀ Code Message,
     created.1 = Raise (ClientError Code Message) →
     r = Raise (ClientError Code Message) ∧
     log st' = log st ++ [create_table_message table_name Code Message]) ∧
  (∀ t Code Message,
     created.1 = Ok t →
     (svc_wait_until_exists svc t created.2).1 =
       Raise (ClientError Code Message) →
     r = Raise (ClientError Code Message) ∧
     log st' = log st ++ [create_table_message table_name Code Message]).
Proof.
  unfold Users.create_table, create_table_request.
  autounfold with monad_ops; simpl.
  destruct (svc_create_table svc table_name Users.KeySchema
              Users.AttributeDefinitions "PAY_PER_REQUEST" (world st))
    as [[t|e] w]; simpl.
  - destruct (svc_wait_until_exists svc t w) as [[[]|e] w'] eqn:Hwait; simpl.
    + repeat split; intros; simplify_eq/=; rewrite ?Hwait in *;
        simplify_eq/=; eauto;
        try (rewrite <- app_assoc; by eauto).
      exists t. by rewrite Hwait, <- app_assoc.
    + destruct e; simpl;
        (repeat split; intros; simplify_eq/=; rewrite ?Hwait in *;
         simplify_eq/=; eauto; rewrite <- app_assoc; eauto).
  - destruct e; simpl; clauses.
Qed.

(** C10. With a table bound, [delete_table] issues the remote delete of that
    table; [self.table] becomes [None] when that delete succeeds; when it
    raises a provider error, the error is logged and raised again and
    [self.table] is still the table it was; and [self.table] changes in no
    other case than a successful remote delete. *)
Theorem delete_table_spec (t : string) :
  table st = Some t →
  let answer := (svc_delete svc t (world st)).1 in
  let r := (Users.delete_table svc st).1 in
  let st' := (Users.delete_table svc st).2 in
  calls st' = calls st ++ [ReqDelete t] ∧
  (answer = Ok () → r = Ok () ∧ table st' = None) ∧
  (∀ Code Message,
     answer = Raise (ClientError Code Message) →
     r = Raise (ClientError Code Message) ∧
     log st' = log st ++ [delete_table_message Code Message] ∧
     table st' = Some t) ∧
  (∀ e, answer = Raise e → r = Raise e ∧ table st' = Some t) ∧
  (table st' ≠ table st → answer = Ok ()).
Proof.
  intros Ht. unfold Users.delete_table.
  autounfold with monad_ops; simpl. rewrite Ht.
  destruct (svc_delete svc t (world st)) as [[[]|e] w]; simpl.
  - clauses.
  - destruct e; simpl; clauses.
Qed.

(** Without a table bound nothing is sent, and the [AttributeError] of the
    call on [None] passes the handler. *)
Lemma delete_table_unbound :
  table st = None →
  Users.delete_table svc st = (Raise (AttributeError "delete"), st).
Proof.
  intros Ht. unfold Users.delete_table.
  autounfold with monad_ops; simpl. by rewrite Ht.
Qed.
End TableManagement.

Lemma delete_table_spec_witness :
  let st := Reference.fresh (Reference.users_table []) in
  table st = Some "users" ∧
  (Users.delete_table Reference.service st).1 = Ok () ∧
  table (Users.delete_table Reference.service st).2 = None.
Proof.
  split; [reflexivity|].
  destruct (delete_table_spec Reference.service
              (Reference.fresh (Reference.users_table [])) "users" eq_refl)
    as (_ & Hok & _).
  apply Hok. reflexivity.
Defined.

(** ** The [set] expressions of [update_user], as the reference service reads
    them *)

Lemma all_chars_impl (p q : Ascii.ascii → bool) (s : string) :
  (∀ c, p c = true → q c = true) →
  Reference.all_chars p s = true → Reference.all_chars q s = true.
Proof.
  intros Hpq. induction s as [|c s IH]; simpl; [done|].
  intros [Hc Hs]%andb_prop. by rewrite (Hpq c Hc), IH.
Qed.

Lemma all_chars_app (p : Ascii.ascii → bool) (a b : string) :
  Reference.all_chars p (a +:+ b) =
    Reference.all_chars p a && Reference.all_chars p b.
Proof.
  induction a as [|c a IH]; simpl; [done|]. by rewrite IH, andb_assoc.
Qed.

(** The characters of a name are none of the separators of an expression. *)
Lemma name_char_no_separator (sep c : Ascii.ascii) :
  Reference.is_name_char sep = false →
  Reference.is_name_char c = true → negb (Ascii.eqb c sep) = true.
Proof.
  intros Hsep Hc. destruct (Ascii.eqb_spec c sep) as [->|]; [|done].
  congruence.
Qed.

Lemma valid_name_chars (k : string) :
  Reference.valid_name k = true →
  Reference.all_chars Reference.is_name_char k = true.
Proof.
  destruct k as [|c k]; simpl; [done|].
  intros [Hc Hk]%andb_prop. rewrite Hk, andb_true_r.
  unfold Reference.is_name_char. by rewrite Hc.
Qed.

Lemma split_free (sep : Ascii.ascii) (s : string) :
  Reference.all_chars (λ c, negb (Ascii.eqb c sep)) s = true →
  Reference.split sep s = [s].
Proof.
  induction s as [|c s IH]; simpl; [done|].
  intros [Hc Hs]%andb_prop. apply negb_true_iff in Hc. by rewrite Hc, IH.
Qed.

Lemma split_app (sep : Ascii.ascii) (a b : string) :
  Reference.all_chars (λ c, negb (Ascii.eqb c sep)) a = true →
  Reference.split sep (a +:+ String sep b) = a :: Reference.split sep b.
Proof.
  induction a as [|c a IH]; simpl.
  - intros _. by rewrite Ascii.eqb_refl.
  - intros [Hc Ha]%andb_prop. apply negb_true_iff in Hc.
    by rewrite Hc, IH.
Qed.

Lemma split_cons (sep c : Ascii.ascii) (s h : string) (tl : list string) :
  Ascii.eqb c sep = false →
  Reference.split sep s = h :: tl →
  Reference.split sep (String c s) = String c h :: tl.
Proof. intros Hc Hs. simpl. by rewrite Hc, Hs. Qed.

Lemma assignment_free (sep : Ascii.ascii) (k : string) :
  Reference.is_name_char sep = false →
  negb (Ascii.eqb "="%char sep) = true →
  negb (Ascii.eqb ":"%char sep) = true →
  Reference.valid_name k = true →
  Reference.all_chars (λ c, negb (Ascii.eqb c sep)) (assignment k) = true.
Proof.
  intros Hsep Heq Hcolon Hk%valid_name_chars. unfold assignment.
  assert (Hfree : Reference.all_chars (λ c, negb (Ascii.eqb c sep)) k = true).
  { eapply all_chars_impl; [|exact Hk]. intros c. by apply name_char_no_separator. }
  rewrite !all_chars_app, Hfree. cbn [Reference.all_chars andb].
  by rewrite Heq, Hcolon.
Qed.

(** The service reads the assignment of a field as the field and its
    placeholder. *)
Lemma parse_assignment_assignment (k : string) :
  Reference.valid_name k = true →
  Reference.parse_assignment (assignment k) = Some (k, ":" +:+ k).
Proof.
  intros Hk. pose proof (valid_name_chars k Hk) as Hchars.
  unfold Reference.parse_assignment, assignment.
  change (k +:+ "=:" +:+ k) with (k +:+ String "="%char (String ":"%char k)).
  rewrite split_app, split_free.
  - destruct k as [|c k]; [done|]. by rewrite Hk, Hchars.
  - simpl. eapply all_chars_impl; [|exact Hchars].
    intros c. by apply name_char_no_separator.
  - eapply all_chars_impl; [|exact Hchars].
    intros c. by apply name_char_no_separator.
Qed.

Lemma ltrim_assignment (k : string) :
  Reference.valid_name k = true →
  Reference.ltrim (assignment k) = assignment k.
Proof.
  destruct k as [|c k]; [done|]. simpl. intros [Hc _]%andb_prop.
  destruct (Ascii.eqb_spec c " "%char) as [->|]; [done|done].
Qed.

Lemma split_concat (l : list string) :
  l ≠ [] →
  Forall (λ a, Reference.all_chars (λ c, negb (Ascii.eqb c ","%char)) a = true) l →
  Reference.split ","%char (String.concat ", " l) =
    match l with
    | [] => []
    | a :: l' => a :: (String " "%char <$> l')
    end.
Proof.
  intros Hne Hfree. induction Hfree as [|a l Ha Hl IH]; [done|]. clear Hne.
  destruct l as [|b l].
  - simpl. by apply split_free.
  - change (String.concat ", " (a :: b :: l))
      with (a +:+ String ","%char (String " "%char (String.concat ", " (b :: l)))).
    rewrite split_app by done.
    by rewrite (split_cons ","%char " "%char _ b (String " "%char <$> l))
      by (done || by apply IH).
Qed.

Lemma mapM_fmap_all {A B C} (f : B → option C) (g : A → B) (h : A → C)
    (l : list A) :
  Forall (λ x, f (g x) = Some (h x)) l → mapM f (g <$> l) = Some (h <$> l).
Proof.
  intros Hall. apply mapM_Some, Forall2_fmap. by apply Forall_Forall2_diag.
Qed.

(** The service reads the expression of a non-empty mapping of plain names as
    the list of the fields, each with its placeholder. *)
Lemma parse_set_expression (kwargs : list (string * value)) :
  kwargs ≠ [] →
  Forall (λ k, Reference.valid_name k = true) (kwargs.*1) →
  Reference.parse_set (set_expression kwargs) =
    Some ((λ k, (k, ":" +:+ k)) <$> kwargs.*1).
Proof.
  intros Hne Hvalid. unfold Reference.parse_set, set_expression. simpl.
  change ("" +:+ String.concat ", " (assignment <$> kwargs.*1))
    with (String.concat ", " (assignment <$> kwargs.*1)).
  rewrite split_concat.
  - destruct kwargs as [|[k v] kwargs]; [done|]. clear Hne. csimpl in *.
    apply Forall_cons in Hvalid as [Hk Hvalid].
    rewrite ltrim_assignment, parse_assignment_assignment by done. simpl.
    rewrite <- !list_fmap_compose.
    rewrite (mapM_fmap_all Reference.parse_assignment _
               ((λ k, (k, ":" +:+ k)) ∘ fst) kwargs); [done|].
    apply Forall_fmap in Hvalid.
    eapply Forall_impl; [exact Hvalid|]. intros [k' v'] Hk'. simpl in *.
    change (Reference.ltrim (String " "%char (assignment k')))
      with (Reference.ltrim (assignment k')).
    by rewrite ltrim_assignment, parse_assignment_assignment.
  - destruct kwargs; [done|]. done.
  - apply Forall_fmap. eapply Forall_impl; [exact Hvalid|].
    intros k Hk. simpl. by apply assignment_free.
Qed.

(** The values the service finds for the placeholders are the values of the
    fields. *)
Lemma placeholders_found (kwargs : list (string * value)) :
  NoDup (kwargs.*1) →
  mapM (λ '(a, ph), v ← value_map kwargs !! ph; Some (a, v))
    ((λ k, (k, ":" +:+ k)) <$> kwargs.*1) = Some kwargs.
Proof.
  intros Hnd. rewrite <- list_fmap_compose.
  apply mapM_Some, Forall2_fmap_l, Forall_Forall2_diag, Forall_forall.
  intros [k v] Hin. simpl.
  apply (value_map_lookup kwargs k v Hnd) in Hin. by rewrite Hin.
Qed.

Lemma fold_updated (kwargs : list (string * value)) (r : item) :
  NoDup (kwargs.*1) →
  foldl (λ r '(a, v), <[a := v]> r) r kwargs = updated kwargs r.
Proof.
  unfold updated.
  induction kwargs as [|[k v] kwargs IH] using rev_ind; intros Hnd.
  - simpl. by rewrite (left_id_L ∅ (∪)).
  - rewrite fmap_app in Hnd. apply NoDup_app in Hnd as (Hnd & Hk & _).
    rewrite foldl_snoc, IH by done. rewrite list_to_map_snoc.
    + by rewrite insert_union_l.
    + intros Hin. apply (Hk k Hin). simpl. left.
Qed.

(** The fields set are found in the record with the values given, and the
    other attributes are as they were. *)
Lemma updated_lookup (kwargs : list (string * value)) (r : item) :
  NoDup (kwargs.*1) →
  (∀ k v, (k, v) ∈ kwargs → updated kwargs r !! k = Some v) ∧
  (∀ a, a ∉ kwargs.*1 → updated kwargs r !! a = r !! a).
Proof.
  intros Hnd. unfold updated. split.
  - intros k v Hin. apply lookup_union_Some_l.
    by apply elem_of_list_to_map_1.
  - intros a Ha. apply lookup_union_r. by apply not_elem_of_list_to_map_1.
Qed.

(** The reference service carries out the update that [update_user] sends
    for fields it accepts, on a record that exists. *)
Lemma update_item_accepts (reserved : string → bool) (t u f : string)
    (kwargs : list (string * value)) (w : Reference.db)
    (td : Reference.table_data) :
  w !! t = Some td →
  kwargs ≠ [] →
  NoDup (kwargs.*1) →
  Forall (field_ok reserved) (kwargs.*1) →
  Exists (λ r, Reference.has_key (u, f) r = true) (Reference.records td) →
  Reference.update_item_with reserved t (Users.key_item (VStr u) (VStr f))
    (set_expression kwargs) (value_map kwargs) "UPDATED_NEW" w =
  (Ok (<["Attributes" := Attributes (list_to_map kwargs)]> Reference.metadata),
   <[t := Reference.TableData
            ((λ r, if Reference.has_key (u, f) r then updated kwargs r else r)
               <$> Reference.records td)
            (Reference.indexes td)]> w).
Proof.
  intros Hw Hne Hnd Hok Hex. unfold Reference.update_item_with.
  rewrite Hw, key_of_key_item, parse_set_expression; [|done|].
  2:{ eapply Forall_impl; [exact Hok|]. by intros k (? & _). }
  assert (Hres : forallb (λ p : string * string, negb (reserved p.1))
                   ((λ k, (k, ":" +:+ k)) <$> kwargs.*1) = true).
  { apply forallb_forall. intros p Hin.
    apply list_elem_of_In, list_elem_of_fmap in Hin as (k & -> & Hin).
    eapply Forall_forall in Hok as (_ & Hk & _); [|exact Hin].
    simpl. by rewrite Hk. }
  rewrite Hres, placeholders_found by done. simpl.
  rewrite bool_decide_eq_true_2.
  - f_equal. f_equal. f_equal. apply list_fmap_ext.
    intros i r _. destruct (Reference.has_key (u, f) r); [|done].
    by apply fold_updated.
  - split; [done|]. repeat split; [..|done].
    + intros Hin. eapply Forall_forall in Hok as (_ & _ & Hk & _); [|exact Hin].
      done.
    + intros Hin. eapply Forall_forall in Hok as (_ & _ & _ & Hk); [|exact Hin].
      done.
Qed.

(** The service is left as the update leaves it. *)
Lemma update_user_world {W} (svc : Service W) (st : state W)
    (user_id full_name : value) (kwargs : list (string * value)) (t : string) :
  NoDup (kwargs.*1) →
  table st = Some t →
  world (Users.update_user svc user_id full_name kwargs st).2 =
    (svc_update_item svc t (Users.key_item user_id full_name)
       (set_expression kwargs) (value_map kwargs) "UPDATED_NEW" (world st)).2.
Proof.
  intros Hnd Ht. unfold Users.update_user.
  rewrite for_kwargs_spec, value_map_fold by done. simpl.
  fold (set_expression kwargs).
  autounfold with monad_ops; simpl. rewrite Ht. simpl.
  destruct (svc_update_item svc t (Users.key_item user_id full_name)
              (set_expression kwargs) (value_map kwargs) "UPDATED_NEW"
              (world st)) as [[resp|e] w]; simpl; [|done].
  by destruct (resp !! "Attributes").
Qed.

(** ** Records *)

Section Records.
Context {W : Type} (svc : Service W) (st : state W).
Context (user_id full_name : value).

(** C7. [add_user(user_id, full_name)] sends one request and no other, the
    write of a record whose attributes are [user_id] and [full_name] and
    nothing else, to the bound table, and the service is left as that write
    leaves it; it returns the raw response of the service when the write
    succeeds and [None] when anything raises, and it never raises itself.
    With no table bound nothing is sent and the service is untouched. *)
Theorem add_user_spec :
  let Item := Users.key_item user_id full_name in
  let r := (Users.add_user svc user_id full_name st).1 in
  let st' := (Users.add_user svc user_id full_name st).2 in
  (dom Item = {["user_id"; "full_name"]} ∧
   Item !! "user_id" = Some user_id ∧ Item !! "full_name" = Some full_name) ∧
  (∃ v, r = Ok v) ∧
  match table st with
  | Some t =>
      calls st' = calls st ++ [ReqPutItem t Item] ∧
      world st' = (svc_put_item svc t Item (world st)).2 ∧
      match (svc_put_item svc t Item (world st)).1 with
      | Ok resp => r = Ok (Some resp) ∧ stdout st' = stdout st
      | Raise e =>
          r = Ok None ∧
          stdout st' = stdout st ++ [OutTraceback (Some "ERROR: ") e]
      end
  | None =>
      calls st' = calls st ∧ world st' = world st ∧ r = Ok None ∧
      stdout st' =
        stdout st ++ [OutTraceback (Some "ERROR: ") (AttributeError "put_item")]
  end.
Proof.
  intros Item r st'. subst Item r st'. split.
  { by rewrite key_item_dom, key_item_user_id, key_item_full_name. }
  unfold Users.add_user. autounfold with monad_ops; simpl.
  destruct (table st) as [t|]; simpl; [|by eauto 10].
  destruct (svc_put_item svc t (Users.key_item user_id full_name) (world st))
    as [[resp|e] w]; simpl; eauto 10.
Qed.

(** C3. With a table bound, [update_user(user_id, full_name, **fields)] on
    a non-empty field mapping sends one request: the update of the record
    whose key is the pair given, with the expression ["set "] followed by the
    assignments [k=:k] of the fields, separated by [", "], with the value map
    that binds [:k] to the value supplied for each field [k], and asking for
    [UPDATED_NEW]; the service is left as that update leaves it.  The method
    returns what the response holds under [Attributes], and [None] when
    anything raises; it never raises itself.  On the reference service,
    whatever names it reserves, when the fields are plain names that are
    neither reserved nor key attributes and the record of the pair exists,
    the value returned is the mapping of the fields set to the values given,
    without the key attributes, and these are the values the record then
    holds, its other attributes and the other records being as they were. *)
Theorem update_user_spec (kwargs : list (string * value)) (t : string) :
  kwargs ≠ [] →
  NoDup (kwargs.*1) →
  table st = Some t →
  let Key := Users.key_item user_id full_name in
  let update := Users.update_user svc user_id full_name kwargs in
  let expression :=
    "set " +:+ String.concat ", " ((λ k, k +:+ "=:" +:+ k) <$> kwargs.*1) in
  let answer :=
    (svc_update_item svc t Key expression (value_map kwargs) "UPDATED_NEW"
       (world st)).1 in
  (calls (update st).2 = calls st ++
     [ReqUpdateItem t Key expression (value_map kwargs) "UPDATED_NEW"] ∧
   world (update st).2 =
     (svc_update_item svc t Key expression (value_map kwargs) "UPDATED_NEW"
        (world st)).2 ∧
   (∀ k v, (k, v) ∈ kwargs ↔ value_map kwargs !! (":" +:+ k) = Some v) ∧
   (∀ p, p ∈ dom (value_map kwargs) ↔ ∃ k, k ∈ kwargs.*1 ∧ p = ":" +:+ k) ∧
   (Key !! "user_id" = Some user_id ∧ Key !! "full_name" = Some full_name ∧
    dom Key = {["user_id"; "full_name"]}) ∧
   (∀ resp a, answer = Ok resp → resp !! "Attributes" = Some a →
              (update st).1 = Ok (Some a)) ∧
   (∀ e, answer = Raise e → (update st).1 = Ok None) ∧
   (∀ resp, answer = Ok resp → resp !! "Attributes" = None →
            (update st).1 = Ok None) ∧
   (∃ v, (update st).1 = Ok v)) ∧
  (∀ (reserved : string → bool) (st0 : state Reference.db) (u f : string)
     (td : Reference.table_data),
     table st0 = Some t →
     world st0 !! t = Some td →
     Forall (field_ok reserved) (kwargs.*1) →
     Exists (λ r, Reference.has_key (u, f) r = true) (Reference.records td) →
     let update0 :=
       Users.update_user (Reference.service_with reserved) (VStr u) (VStr f)
         kwargs in
     (update0 st0).1 = Ok (Some (Attributes (list_to_map kwargs))) ∧
     (∀ k v, (k, v) ∈ kwargs ↔
             (list_to_map kwargs : item) !! k = Some v) ∧
     (list_to_map kwargs : item) !! "user_id" = None ∧
     (list_to_map kwargs : item) !! "full_name" = None ∧
     world (update0 st0).2 =
       <[t := Reference.TableData
                ((λ r, if Reference.has_key (u, f) r
                       then updated kwargs r else r)
                   <$> Reference.records td)
                (Reference.indexes td)]> (world st0) ∧
     (∀ r k v, (k, v) ∈ kwargs → updated kwargs r !! k = Some v) ∧
     (∀ r a, a ∉ kwargs.*1 → updated kwargs r !! a = r !! a)).
Proof.
  intros Hne Hnd Ht Key update. split.
  - pose proof (update_user_run svc st user_id full_name kwargs Hnd) as Hrun.
    pose proof (update_user_world svc st user_id full_name kwargs t Hnd Ht)
      as Hworld.
    rewrite Ht in Hrun. destruct Hrun as [Hcalls Hrun].
    change ("set " +:+ String.concat ", " ((λ k, k +:+ "=:" +:+ k) <$> kwargs.*1))
      with (set_expression kwargs). simpl.
    fold Key update in Hcalls, Hrun, Hworld.
    split; [done|]. split; [done|].
    split; [by intros; apply value_map_lookup|].
    split; [by apply value_map_dom|].
    split.
    { subst Key. by rewrite key_item_dom, key_item_user_id, key_item_full_name. }
    destruct (svc_update_item svc t Key (set_expression kwargs)
                (value_map kwargs) "UPDATED_NEW" (world st)).1 as [resp|e].
    + destruct (resp !! "Attributes") as [a|] eqn:Ha.
      * destruct Hrun as [Hr _]. clauses; congruence.
      * destruct Hrun as [Hr _]. clauses; congruence.
    + destruct Hrun as [Hr _]. clauses.
  - intros reserved st0 u f td Ht0 Hw Hok Hex update0.
    pose proof (update_item_accepts reserved t u f kwargs (world st0) td
                  Hw Hne Hnd Hok Hex) as Haccept.
    pose proof (update_user_run (Reference.service_with reserved) st0 (VStr u)
                  (VStr f) kwargs Hnd) as Hrun.
    pose proof (update_user_world (Reference.service_with reserved) st0
                  (VStr u) (VStr f) kwargs t Hnd Ht0) as Hworld.
    rewrite Ht0 in Hrun. destruct Hrun as [_ Hrun].
    simpl in Hrun, Hworld. rewrite Haccept in Hrun, Hworld. simpl in Hrun.
    rewrite lookup_insert_eq in Hrun. destruct Hrun as [Hr _].
    destruct (updated_lookup kwargs ∅ Hnd) as [_ _].
    split; [exact Hr|].
    split; [by intros; apply elem_of_list_to_map|].
    split.
    { apply not_elem_of_list_to_map_1. intros Hin.
      eapply Forall_forall in Hok as (_ & _ & Hk & _); [|exact Hin]. done. }
    split.
    { apply not_elem_of_list_to_map_1. intros Hin.
      eapply Forall_forall in Hok as (_ & _ & _ & Hk); [|exact Hin]. done. }
    split; [exact Hworld|].
    split; intros r; by apply updated_lookup.
Qed.

(** C6. With a table bound, [update_user] with no field sends the update
    whose expression is ["set "], with no assignment, and whose value map is
    empty; when the remote call raises, the exception is printed and
    [update_user] returns [None]. *)
Theorem update_user_no_field (t : string) :
  table st = Some t →
  let Key := Users.key_item user_id full_name in
  let update := Users.update_user svc user_id full_name [] in
  let answer :=
    (svc_update_item svc t Key "set " ∅ "UPDATED_NEW" (world st)).1 in
  calls (update st).2 =
    calls st ++ [ReqUpdateItem t Key "set " ∅ "UPDATED_NEW"] ∧
  (∀ e, answer = Raise e →
        (update st).1 = Ok None ∧
        stdout (update st).2 = stdout st ++ [OutTraceback None e]).
Proof.
  intros Ht Key update.
  pose proof (update_user_run svc st user_id full_name [] (NoDup_nil_2))
    as Hrun.
  rewrite Ht in Hrun. destruct Hrun as [Hcalls Hrun].
  change (set_expression []) with "set " in *.
  change (value_map []) with (∅ : item) in *.
  fold Key update in Hcalls, Hrun.
  simpl. split; [done|]. intros e He.
  rewrite He in Hrun. by destruct Hrun as (? & ? & _).
Qed.
End Records.

Lemma update_user_spec_witness :
  let fields := [("email", VStr "ann@example.org"); ("age", VInt 30)] in
  let update :=
    Users.update_user Reference.service (VStr "u1") (VStr "Ann Lee") fields in
  fields ≠ [] ∧ NoDup (fields.*1) ∧ table with_ann = Some "users" ∧
  Forall (field_ok Reference.is_reserved) (fields.*1) ∧
  calls (update with_ann).2 =
    [ReqUpdateItem "users" ann "set email=:email, age=:age"
       {[ ":email" := VStr "ann@example.org"; ":age" := VInt 30 ]}
       "UPDATED_NEW"] ∧
  (update with_ann).1 =
    Ok (Some (Attributes
                {[ "email" := VStr "ann@example.org"; "age" := VInt 30 ]})) ∧
  world (update with_ann).2 =
    Reference.users_table
      [<["email" := VStr "ann@example.org"]> (<["age" := VInt 30]> ann)].
Proof.
  assert (Hne : [("email", VStr "ann@example.org"); ("age", VInt 30)]
                ≠ ([] : list (string * value))) by discriminate.
  assert (Hnd : NoDup ([("email", VStr "ann@example.org"); ("age", VInt 30)].*1))
    by (apply (bool_decide_unpack _); vm_compute; exact I).
  assert (Hok : Forall (field_ok Reference.is_reserved)
                  ([("email", VStr "ann@example.org"); ("age", VInt 30)].*1)).
  { repeat constructor; (vm_compute; reflexivity) || discriminate. }
  assert (Hex : Exists (λ r, Reference.has_key ("u1", "Ann Lee") r = true) [ann]).
  { apply Exists_cons_hd. vm_compute. reflexivity. }
  destruct (update_user_spec Reference.service with_ann (VStr "u1")
              (VStr "Ann Lee") _ "users" Hne Hnd eq_refl)
    as [(Hcalls & _) Href].
  destruct (Href Reference.is_reserved with_ann "u1" "Ann Lee"
              (Reference.TableData [ann] [("name-index", "name")])
              eq_refl eq_refl Hok Hex) as (Hr & _ & _ & _ & Hw & _).
  split; [exact Hne|]. split; [exact Hnd|]. split; [reflexivity|].
  split; [exact Hok|]. split; [|split].
  - rewrite Hcalls. vm_compute. reflexivity.
  - etrans; [exact Hr|]. vm_compute. reflexivity.
  - etrans; [exact Hw|]. vm_compute. reflexivity.
Defined.

Lemma update_user_no_field_witness :
  let update :=
    Users.update_user Reference.service (VStr "u1") (VStr "Ann Lee") [] in
  table with_ann = Some "users" ∧
  (Reference.update_item "users" ann "set " ∅ "UPDATED_NEW"
     (world with_ann)).1 =
    Raise (ClientError "ValidationException"
             "Invalid UpdateExpression: Syntax error") ∧
  (update with_ann).1 = Ok None.
Proof.
  split; [reflexivity|]. split; [vm_compute; reflexivity|].
  destruct (update_user_no_field Reference.service with_ann (VStr "u1")
              (VStr "Ann Lee") "users" eq_refl) as [_ Hraise].
  eapply Hraise. vm_compute. reflexivity.
Defined.

(** ** The attribute [name] *)

Lemma fold_insert_other (sets : list (string * value)) (r : item) (a : string) :
  a ∉ sets.*1 →
  foldl (λ r '(a, v), <[a := v]> r) r sets !! a = r !! a.
Proof.
  revert r. induction sets as [|[k v] sets IH]; intros r Ha; [done|].
  csimpl in *. apply not_elem_of_cons in Ha as [Hk Ha].
  rewrite IH by done. by rewrite lookup_insert_ne.
Qed.

Lemma placeholders_keep_names (eav : item) (asg : list (string * string))
    (sets : list (string * value)) :
  mapM (λ '(a, ph), v ← eav !! ph; Some (a, v)) asg = Some sets →
  sets.*1 = asg.*1.
Proof.
  intros Hsets%mapM_Some.
  induction Hsets as [|[a ph] [a' v] asg sets Hx _ IH]; [done|].
  csimpl. rewrite IH. f_equal.
  simpl in Hx. destruct (eav !! ph); by simplify_eq/=.
Qed.

(** Whatever the update asked for, the reference service sets no attribute
    whose name it reserves. *)
Lemma update_item_keeps_name (reserved : string → bool) (t : string)
    (key : item) (expr : string) (eav : item) (rv : string)
    (w : Reference.db) :
  reserved "name" = true →
  name_free w →
  name_free (Reference.update_item_with reserved t key expr eav rv w).2.
Proof.
  intros Hres Hfree. unfold Reference.update_item_with.
  destruct (w !! t) as [td|] eqn:Hw; [|done].
  destruct (Reference.key_of key) as [k|]; [|done].
  destruct (Reference.parse_set expr) as [asg|]; [|done].
  destruct (forallb (λ p : string * string, negb (reserved p.1)) asg)
    eqn:Hforall; simpl; [|done].
  destruct (mapM (λ '(a, ph), v ← eav !! ph; Some (a, v)) asg)
    as [sets|] eqn:Hsets; [|done].
  destruct (bool_decide _); [|done]. simpl.
  intros t' td' r Hlook Hr.
  destruct (decide (t' = t)) as [->|Hne].
  - rewrite lookup_insert_eq in Hlook. injection Hlook as <-. simpl in Hr.
    apply list_elem_of_fmap in Hr as (r0 & -> & Hr0).
    specialize (Hfree t td r0 Hw Hr0).
    destruct (Reference.has_key k r0); [|done].
    rewrite fold_insert_other; [done|].
    rewrite (placeholders_keep_names _ _ _ Hsets).
    intros ([a ph] & Ha & Hin)%list_elem_of_fmap. simpl in Ha. subst a.
    rewrite forallb_forall in Hforall.
    apply list_elem_of_In, Hforall in Hin. simpl in Hin.
    by rewrite Hres in Hin.
  - rewrite lookup_insert_ne in Hlook by done. eauto.
Qed.

Lemma put_item_keeps_name (t : string) (user_id full_name : value)
    (w : Reference.db) :
  name_free w →
  name_free (Reference.put_item t (Users.key_item user_id full_name) w).2.
Proof.
  intros Hfree. unfold Reference.put_item.
  destruct (w !! t) as [td|] eqn:Hw; [|done].
  destruct (Reference.key_of _) as [k|]; [|done]. simpl.
  intros t' td' r Hlook Hr.
  destruct (decide (t' = t)) as [->|Hne].
  - rewrite lookup_insert_eq in Hlook. injection Hlook as <-. simpl in Hr.
    apply elem_of_app in Hr as [[_ Hr]%list_elem_of_filter|Hr].
    + eauto.
    + apply list_elem_of_singleton in Hr as ->. by apply key_item_other.
  - rewrite lookup_insert_ne in Hlook by done. eauto.
Qed.

Lemma delete_item_keeps_name (t : string) (key : item) (w : Reference.db) :
  name_free w → name_free (Reference.delete_item t key w).2.
Proof.
  intros Hfree. unfold Reference.delete_item.
  destruct (w !! t) as [td|] eqn:Hw; [|done].
  destruct (Reference.key_of _) as [k|]; [|done]. simpl.
  intros t' td' r Hlook Hr.
  destruct (decide (t' = t)) as [->|Hne].
  - rewrite lookup_insert_eq in Hlook. injection Hlook as <-. simpl in Hr.
    apply list_elem_of_filter in Hr as [_ Hr]. eauto.
  - rewrite lookup_insert_ne in Hlook by done. eauto.
Qed.

(** The service after a write method is the service after its one remote
    operation, when a table is bound, and the service before otherwise. *)
Lemma write_methods_world {W} (svc : Service W) (st : state W)
    (user_id full_name : value) (kwargs : list (string * value)) :
  let Key := Users.key_item user_id full_name in
  world (Users.add_user svc user_id full_name st).2 =
    match table st with
    | Some t => (svc_put_item svc t Key (world st)).2
    | None => world st
    end ∧
  world (Users.update_user svc user_id full_name kwargs st).2 =
    match table st with
    | Some t =>
        (svc_update_item svc t Key
           ("set " +:+ String.concat ", " (Users.for_kwargs kwargs [] ∅).1)
           (Users.for_kwargs kwargs [] ∅).2 "UPDATED_NEW" (world st)).2
    | None => world st
    end ∧
  world (Users.delete_user_by_id svc user_id full_name st).2 =
    match table st with
    | Some t => (svc_delete_item svc t Key (world st)).2
    | None => world st
    end.
Proof.
  unfold Users.add_user, Users.update_user, Users.delete_user_by_id.
  destruct (Users.for_kwargs kwargs [] ∅) as [ue ea].
  autounfold with monad_ops; simpl.
  destruct (table st) as [t|]; simpl; [|done].
  destruct (svc_put_item svc t _ (world st)) as [[?|?] ?]; simpl.
  all: destruct (svc_update_item svc t _ _ ea "UPDATED_NEW" (world st))
         as [[resp|?] ?]; simpl.
  all: try destruct (resp !! "Attributes"); simpl.
  all: destruct (svc_delete_item svc t _ (world st)) as [[?|[]] ?]; simpl.
  all: done.
Qed.

Section QueryByName.
Context {W : Type} (svc : Service W) (st : state W) (name : value).

(** C8. With a table bound, [query_by_user_name(name)] sends one query, on
    the index [name-index], whose condition is the equality of the attribute
    [name] with the argument, and leaves the service as that query leaves it;
    [name] is another attribute than [full_name]; the method returns what the
    response holds under [Items] when the query succeeds and [None] when
    anything raises.  No write path of the layer populates [name]: the record
    [add_user] writes has no such attribute, and on the reference service,
    which like the remote one reserves the word [name], when no record has an
    attribute [name] none has one after [add_user], after [update_user],
    whatever its fields, or after [delete_user_by_id]. *)
Theorem query_by_user_name_spec (t : string) :
  table st = Some t →
  let query := Users.query_by_user_name svc name in
  let answer :=
    (svc_query svc t (Some "name-index") (KeyEq "name" name) (world st)).1 in
  (calls (query st).2 =
     calls st ++ [ReqQuery t (Some "name-index") (KeyEq "name" name)] ∧
   world (query st).2 =
     (svc_query svc t (Some "name-index") (KeyEq "name" name) (world st)).2 ∧
   "name" ≠ "full_name" ∧
   (∀ resp items, answer = Ok resp → resp !! "Items" = Some items →
                  (query st).1 = Ok (Some items)) ∧
   (∀ e, answer = Raise e → (query st).1 = Ok None) ∧
   (∀ resp, answer = Ok resp → resp !! "Items" = None →
            (query st).1 = Ok None) ∧
   (∃ v, (query st).1 = Ok v)) ∧
  (∀ user_id full_name, Users.key_item user_id full_name !! "name" = None) ∧
  (∀ (reserved : string → bool) (st0 : state Reference.db)
     (user_id full_name : value) (kwargs : list (string * value)),
     reserved "name" = true →
     name_free (world st0) →
     name_free
       (world (Users.add_user (Reference.service_with reserved) user_id
                 full_name st0).2) ∧
     name_free
       (world (Users.update_user (Reference.service_with reserved) user_id
                 full_name kwargs st0).2) ∧
     name_free
       (world (Users.delete_user_by_id (Reference.service_with reserved)
                 user_id full_name st0).2)).
Proof.
  intros Ht query. split; [|split].
  - pose proof (query_by_user_name_run svc st name) as Hrun.
    unfold query_run in Hrun. rewrite Ht in Hrun. fold query in Hrun.
    destruct Hrun as [Hcalls Hrun]. simpl.
    split; [done|]. split.
    { subst query. unfold Users.query_by_user_name.
      autounfold with monad_ops; simpl. rewrite Ht. simpl.
      destruct (svc_query svc t (Some "name-index") (KeyEq "name" name)
                  (world st)) as [[resp|e] w]; simpl; [|done].
      by destruct (resp !! "Items"). }
    split; [done|].
    destruct (svc_query svc t (Some "name-index") (KeyEq "name" name)
                (world st)).1 as [resp|e].
    + destruct (resp !! "Items") as [items|] eqn:Hitems.
      * destruct Hrun as [Hr _]. clauses; congruence.
      * destruct Hrun as [Hr _]. clauses; congruence.
    + destruct Hrun as [Hr _]. clauses.
  - by intros; apply key_item_other.
  - intros reserved st0 user_id full_name kwargs Hres Hfree.
    destruct (write_methods_world (Reference.service_with reserved) st0
                user_id full_name kwargs) as (Hadd & Hupd & Hdel).
    rewrite Hadd, Hupd, Hdel. simpl.
    destruct (table st0) as [t0|]; [|done].
    split; [by apply put_item_keeps_name|].
    split; [by apply update_item_keeps_name|by apply delete_item_keeps_name].
Qed.
End QueryByName.

Lemma query_by_user_name_spec_witness :
  let st := Reference.fresh (Reference.users_table [<["name" := VStr "Ann"]> ann]) in
  let update :=
    Users.update_user Reference.service (VStr "u1") (VStr "Ann Lee")
      [("name", VStr "Ann")] in
  table st = Some "users" ∧
  Reference.is_reserved "name" = true ∧
  name_free (world with_ann) ∧
  (Users.query_by_user_name Reference.service (VStr "Ann") st).1 =
    Ok (Some (Items [<["name" := VStr "Ann"]> ann])) ∧
  name_free (world (update with_ann).2).
Proof.
  assert (Hres : Reference.is_reserved "name" = true) by (vm_compute; reflexivity).
  assert (Hfree : name_free (world with_ann)).
  { intros t td r Hlook Hr.
    unfold with_ann, Reference.fresh, Reference.users_table in Hlook.
    simpl in Hlook. apply lookup_singleton_Some in Hlook as [<- <-].
    apply list_elem_of_singleton in Hr as ->. vm_compute. reflexivity. }
  destruct (query_by_user_name_spec Reference.service
              (Reference.fresh
                 (Reference.users_table [<["name" := VStr "Ann"]> ann]))
              (VStr "Ann") "users" eq_refl)
    as ((_ & _ & _ & Hitems & _) & _ & Hwrites).
  split; [reflexivity|]. split; [exact Hres|]. split; [exact Hfree|]. split.
  - eapply Hitems; vm_compute; reflexivity.
  - apply (Hwrites Reference.is_reserved with_ann (VStr "u1") (VStr "Ann Lee")
             [("name", VStr "Ann")] Hres Hfree).
Defined.

(** [update_user] called with a field [name] sends the bare word in its
    expression; the reference service rejects it, nothing is written, and
    the query by name finds nothing after the call as before it. *)
Example update_user_name_rejected :
  let update :=
    Users.update_user Reference.service (VStr "u1") (VStr "Ann Lee")
      [("name", VStr "Ann")] in
  let query := Users.query_by_user_name Reference.service (VStr "Ann") in
  calls (update with_ann).2 =
    [ReqUpdateItem "users" ann "set name=:name" {[ ":name" := VStr "Ann" ]}
       "UPDATED_NEW"] ∧
  (update with_ann).1 = Ok None ∧
  world (update with_ann).2 = world with_ann ∧
  (query (update with_ann).2).1 = Ok (Some (Items [])).
Proof. vm_compute. repeat split. Qed.

(** C2. After [delete_table], [self.table] is [None]; the call of
    [delete_item] on it raises an [AttributeError], which is no provider
    error: [delete_user_by_id] does not return false, it raises, where
    [add_user] in the same state returns its sentinel. *)
Theorem delete_user_by_id_local_error :
  let st := (Users.delete_table Reference.service with_ann).2 in
  table st = None ∧
  Users.delete_user_by_id Reference.service (VStr "u1") (VStr "Ann Lee") st =
    (Raise (AttributeError "delete_item"), st) ∧
  (Users.add_user Reference.service (VStr "u1") (VStr "Ann Lee") st).1 =
    Ok None.
Proof. vm_compute. repeat split. Qed.

(** ** The two error policies *)

Section ErrorPolicy.
Context {W : Type} (svc : Service W) (st : state W).

(** C1, amended. The table-management methods log a provider error and raise
    it again, but for [exists], which answers false, without logging or
    raising, to the provider error [ResourceNotFoundException].  [add_user],
    [query_by_user_id], [query_by_user_name] and [update_user] never raise:
    whatever the remote call raises, and also without a table bound, they
    print the traceback and return [None].  [delete_user_by_id] prints a
    provider error and returns false. *)
Theorem error_policy :
  (* exists *)
  (∀ Code Message,
     (svc_load svc "users" (world st)).1 = Raise (ClientError Code Message) →
     if String.eqb Code "ResourceNotFoundException"
     then (Users.exists_ svc st).1 = Ok false ∧
          log (Users.exists_ svc st).2 = log st
     else reraised (Users.exists_ svc) st (exists_message Code Message)
            (ClientError Code Message)) ∧
  (* list_tables *)
  (∀ Code Message,
     (svc_tables_all svc (world st)).1.2 = Some (ClientError Code Message) →
     reraised (Users.list_tables svc) st (list_tables_message Code Message)
       (ClientError Code Message)) ∧
  (* create_table *)
  (∀ name Code Message,
     (svc_create_table svc name Users.KeySchema Users.AttributeDefinitions
        "PAY_PER_REQUEST" (world st)).1 = Raise (ClientError Code Message) →
     reraised (Users.create_table svc name) st
       (create_table_message name Code Message) (ClientError Code Message)) ∧
  (∀ name t w Code Message,
     svc_create_table svc name Users.KeySchema Users.AttributeDefinitions
       "PAY_PER_REQUEST" (world st) = (Ok t, w) →
     (svc_wait_until_exists svc t w).1 = Raise (ClientError Code Message) →
     reraised (Users.create_table svc name) st
       (create_table_message name Code Message) (ClientError Code Message)) ∧
  (* delete_table *)
  (∀ t Code Message,
     table st = Some t →
     (svc_delete svc t (world st)).1 = Raise (ClientError Code Message) →
     reraised (Users.delete_table svc) st
       (delete_table_message Code Message) (ClientError Code Message)) ∧
  (* add_user *)
  (∀ user_id full_name,
     let add := Users.add_user svc user_id full_name in
     never_raises add ∧
     (table st = None →
      swallowed add st None (Some "ERROR: ") (AttributeError "put_item")) ∧
     (∀ t e, table st = Some t →
        (svc_put_item svc t (Users.key_item user_id full_name)
           (world st)).1 = Raise e →
        swallowed add st None (Some "ERROR: ") e)) ∧
  (* query_by_user_id *)
  (∀ user_id,
     let query := Users.query_by_user_id svc user_id in
     never_raises query ∧
     (table st = None →
      swallowed query st None (Some "ERROR: ") (AttributeError "query")) ∧
     (∀ t e, table st = Some t →
        (svc_query svc t None (KeyEq "user_id" user_id) (world st)).1 =
          Raise e →
        swallowed query st None (Some "ERROR: ") e)) ∧
  (* query_by_user_name *)
  (∀ name,
     let query := Users.query_by_user_name svc name in
     never_raises query ∧
     (table st = None →
      swallowed query st None (Some "ERROR: ") (AttributeError "query")) ∧
     (∀ t e, table st = Some t →
        (svc_query svc t (Some "name-index") (KeyEq "name" name)
           (world st)).1 = Raise e →
        swallowed query st None (Some "ERROR: ") e)) ∧
  (* update_user *)
  (∀ user_id full_name kwargs,
     let update := Users.update_user svc user_id full_name kwargs in
     never_raises update ∧
     (NoDup (kwargs.*1) → table st = None →
      swallowed update st None None (AttributeError "update_item")) ∧
     (∀ t e, NoDup (kwargs.*1) → table st = Some t →
        (svc_update_item svc t (Users.key_item user_id full_name)
           (set_expression kwargs) (value_map kwargs) "UPDATED_NEW"
           (world st)).1 = Raise e →
        swallowed update st None None e)) ∧
  (* delete_user_by_id *)
  (∀ user_id full_name t Code Message,
     table st = Some t →
     (svc_delete_item svc t (Users.key_item user_id full_name)
        (world st)).1 = Raise (ClientError Code Message) →
     swallowed (Users.delete_user_by_id svc user_id full_name) st false
       (Some "Error: ") (ClientError Code Message)).
Proof.
  split.
  { intros Code Message. unfold reraised, Users.exists_, Users.Table.
    autounfold with monad_ops; simpl.
    destruct (svc_load svc "users" (world st)) as [[[]|e] w]; simpl;
      [done|]. intros [= ->]. simpl.
    destruct (String.eqb Code "ResourceNotFoundException"); simpl; done. }
  split.
  { intros Code Message Hstop. pose proof (list_tables_run svc st) as Hrun.
    simpl in Hrun. rewrite Hstop in Hrun. unfold reraised. tauto. }
  split.
  { intros name Code Message. unfold reraised, Users.create_table.
    autounfold with monad_ops; simpl.
    destruct (svc_create_table svc name Users.KeySchema
                Users.AttributeDefinitions "PAY_PER_REQUEST" (world st))
      as [[t|e] w]; simpl; [done|]. by intros [= ->]. }
  split.
  { intros name t w Code Message Hcreate. unfold reraised, Users.create_table.
    autounfold with monad_ops; simpl. rewrite Hcreate. simpl.
    destruct (svc_wait_until_exists svc t w) as [[[]|e] w']; simpl; [done|].
    by intros [= ->]. }
  split.
  { intros t Code Message Ht. unfold reraised, Users.delete_table.
    autounfold with monad_ops; simpl. rewrite Ht.
    destruct (svc_delete svc t (world st)) as [[[]|e] w]; simpl; [done|].
    by intros [= ->]. }
  split.
  { intros user_id full_name add.
    split; [apply catch_all_never_raises|].
    pose proof (add_user_run svc st user_id full_name) as Hrun.
    simpl in Hrun. fold add in Hrun.
    split; [by intros Ht; rewrite Ht in Hrun|].
    intros t e Ht He. by rewrite Ht, He in Hrun. }
  split.
  { intros user_id query.
    split; [apply catch_all_never_raises|].
    pose proof (query_by_user_id_run svc st user_id) as Hrun.
    unfold query_run in Hrun. fold query in Hrun.
    split; [by intros Ht; rewrite Ht in Hrun; destruct Hrun|].
    intros t e Ht He. rewrite Ht, He in Hrun. by destruct Hrun. }
  split.
  { intros name query.
    split; [apply catch_all_never_raises|].
    pose proof (query_by_user_name_run svc st name) as Hrun.
    unfold query_run in Hrun. fold query in Hrun.
    split; [by intros Ht; rewrite Ht in Hrun; destruct Hrun|].
    intros t e Ht He. rewrite Ht, He in Hrun. by destruct Hrun. }
  split.
  { intros user_id full_name kwargs update.
    split.
    { unfold update, Users.update_user.
      destruct (Users.for_kwargs kwargs [] ∅) as [ue ea].
      apply catch_all_never_raises. }
    split.
    - intros Hnd Ht.
      pose proof (update_user_run svc st user_id full_name kwargs Hnd) as Hrun.
      rewrite Ht in Hrun. by destruct Hrun.
    - intros t e Hnd Ht He.
      pose proof (update_user_run svc st user_id full_name kwargs Hnd) as Hrun.
      rewrite Ht, He in Hrun. by destruct Hrun. }
  intros user_id full_name t Code Message Ht He.
  pose proof (delete_user_by_id_run svc st user_id full_name) as Hrun.
  simpl in Hrun. rewrite Ht, He in Hrun. by destruct Hrun.
Qed.
End ErrorPolicy.

(** C1 as stated fails on [exists]: the table "users" missing, the load
    raises a provider error, and [exists] neither logs nor raises it. *)
Lemma exists_answers_not_found :
  let st := Reference.fresh Reference.no_table in
  (svc_load Reference.service "users" (world st)).1 =
    Raise (ClientError "ResourceNotFoundException"
             "Requested resource not found") ∧
  (Users.exists_ Reference.service st).1 = Ok false ∧
  log (Users.exists_ Reference.service st).2 = [].
Proof. vm_compute. repeat split. Qed.

(** ** Writing a record and reading it back, on the reference service *)

Lemma filter_absent (u f : string) (rs : list item) :
  (∀ r, r ∈ rs → Reference.key_of r ≠ Some (u, f)) →
  filter (λ r, Reference.has_key (u, f) r = false) rs = rs.
Proof.
  induction rs as [|r rs IH]; intros Habs; [done|].
  rewrite filter_cons_True.
  - rewrite IH; [done|]. intros r' Hr'. apply Habs. by right.
  - unfold Reference.has_key. apply bool_decide_eq_false. apply Habs. left.
Qed.

Lemma by_sort_key_total : Total Reference.by_sort_key.
Proof.
  intros r1 r2. unfold Reference.by_sort_key.
  apply (total String.le).
Qed.

Section AddThenQuery.
Context (st : state Reference.db) (t u f : string) (td : Reference.table_data).

(** C9, amended. On a table that exists and is bound, for a valid pair, of
    non-empty strings, that is the key of no record of the table,
    [add_user(user_id, full_name)] followed by [query_by_user_id(user_id)]
    returns, in the order of their sort keys, the records the table held
    under that [user_id] together with one record more, whose [user_id] and
    [full_name] are the pair written and which has no other attribute; none
    of the former has that [full_name]; so the sequence is that one record
    when the table held none under that [user_id]. *)
Theorem add_then_query_spec :
  table st = Some t →
  world st !! t = Some td →
  u ≠ "" → f ≠ "" →
  absent u f td →
  let new : item := Users.key_item (VStr u) (VStr f) in
  (∃ l, (add_then_query (VStr u) (VStr f) st).1 = Ok (Some (Items l)) ∧
        l ≡ₚ stored_under u td ++ [new] ∧
        Sorted Reference.by_sort_key l) ∧
  (new !! "user_id" = Some (VStr u) ∧ new !! "full_name" = Some (VStr f) ∧
   dom new = {["user_id"; "full_name"]}) ∧
  (∀ r, r ∈ stored_under u td → r !! "full_name" ≠ Some (VStr f)) ∧
  (stored_under u td = [] →
   (add_then_query (VStr u) (VStr f) st).1 = Ok (Some (Items [new]))).
Proof.
  intros Ht Hw _ _ Habs new.
  assert (Hrun : (add_then_query (VStr u) (VStr f) st).1 =
                 Ok (Some (Items (merge_sort Reference.by_sort_key
                                    (stored_under u td ++ [new]))))).
  { unfold add_then_query, Users.add_user, Users.query_by_user_id.
    autounfold with monad_ops; simpl. rewrite Ht. simpl.
    unfold Reference.put_item. rewrite Hw, key_of_key_item. simpl.
    unfold Reference.query. rewrite lookup_insert_eq. simpl.
    rewrite (filter_absent u f _ Habs), filter_app.
    rewrite (filter_cons_True _ (Users.key_item (VStr u) (VStr f))), filter_nil.
    - done.
    - unfold Reference.has_attr. apply bool_decide_eq_true.
      apply key_item_user_id. }
  split.
  { eexists. split; [exact Hrun|]. split.
    - apply merge_sort_Permutation.
    - apply (@Sorted_merge_sort _ _ _ by_sort_key_total). }
  split.
  { subst new. by rewrite key_item_user_id, key_item_full_name, key_item_dom. }
  split.
  - intros r [Hu Hr]%list_elem_of_filter Hf.
    apply bool_decide_eq_true in Hu. apply (Habs r Hr).
    unfold Reference.key_of. by rewrite Hu, Hf.
  - intros Hnone. by rewrite Hrun, Hnone.
Qed.
End AddThenQuery.

Lemma add_then_query_spec_witness :
  let st := Reference.fresh (Reference.users_table [cy]) in
  table st = Some "users" ∧
  world st !! "users" = Some (Reference.TableData [cy] [("name-index", "name")]) ∧
  "u1" ≠ "" ∧ "Ann Lee" ≠ "" ∧
  absent "u1" "Ann Lee" (Reference.TableData [cy] [("name-index", "name")]) ∧
  (add_then_query (VStr "u1") (VStr "Ann Lee") st).1 = Ok (Some (Items [ann])).
Proof.
  assert (Habs : absent "u1" "Ann Lee"
                   (Reference.TableData [cy] [("name-index", "name")])).
  { intros r ->%list_elem_of_singleton. vm_compute. discriminate. }
  assert (Hu : "u1" ≠ "") by discriminate.
  assert (Hf : "Ann Lee" ≠ "") by discriminate.
  split; [reflexivity|]. split; [reflexivity|].
  split; [exact Hu|]. split; [exact Hf|]. split; [exact Habs|].
  destruct (add_then_query_spec (Reference.fresh (Reference.users_table [cy]))
              "users" "u1" "Ann Lee" _ eq_refl eq_refl Hu Hf Habs)
    as (_ & _ & _ & Hone).
  apply Hone. reflexivity.
Defined.

(** C9 as stated fails: the valid pair (u1, Ann Lee) is not in the table,
    which holds Bob Ray under the same [user_id]; the query after the write
    gives two records. *)
Lemma add_then_query_two_records :
  let st := Reference.fresh (Reference.users_table [bob]) in
  absent "u1" "Ann Lee" (Reference.TableData [bob] [("name-index", "name")]) ∧
  world st !! "users" = Some (Reference.TableData [bob] [("name-index", "name")]) ∧
  (add_then_query (VStr "u1") (VStr "Ann Lee") st).1 =
    Ok (Some (Items [ann; bob])) ∧
  length [ann; bob] ≠ 1.
Proof.
  split.
  { intros r ->%list_elem_of_singleton. vm_compute. discriminate. }
  vm_compute. repeat split. discriminate.
Qed.

(** ** Runs on the reference service *)

Example exists_on_table :
  let st := Reference.fresh (Reference.users_table []) in
  (Users.exists_ Reference.service st).1 = Ok true ∧
  table (Users.exists_ Reference.service st).2 = Some "users".
Proof. vm_compute. by split. Qed.

Example create_table_then_exists :
  let st := Reference.fresh Reference.no_table in
  let st' := (Users.create_table Reference.service "users" st).2 in
  (Users.exists_ Reference.service st).1 = Ok false ∧
  (Users.create_table Reference.service "users" st).1 = Ok (Some "users") ∧
  calls st' = [create_table_request "users"; ReqWaitUntilExists "users"] ∧
  (Users.exists_ Reference.service st').1 = Ok true.
Proof. vm_compute. by repeat split. Qed.

Example create_table_twice :
  let st := Reference.fresh (Reference.users_table []) in
  (Users.create_table Reference.service "users" st).1 =
    Raise (ClientError "ResourceInUseException" "Table already exists") ∧
  log (Users.create_table Reference.service "users" st).2 =
    ["Couldn't create table users. Here's why: ResourceInUseException: Table already exists"].
Proof. vm_compute. by split. Qed.

Example list_tables_one :
  let st := Reference.fresh (Reference.users_table []) in
  (Users.list_tables Reference.service st).1 = Ok ["users"] ∧
  stdout (Users.list_tables Reference.service st).2 = [OutLine "users"].
Proof. vm_compute. by split. Qed.

Example delete_table_missing :
  let st := Reference.fresh Reference.no_table in
  (Users.delete_table Reference.service st).1 =
    Raise (ClientError "ResourceNotFoundException"
             "Requested resource not found") ∧
  log (Users.delete_table Reference.service st).2 =
    ["Couldn't delete table. Here's why: ResourceNotFoundException: Requested resource not found"] ∧
  table (Users.delete_table Reference.service st).2 = Some "users".
Proof. vm_compute. by repeat split. Qed.

Example add_user_missing_table :
  let st := Reference.fresh Reference.no_table in
  let add := Users.add_user Reference.service (VStr "u1") (VStr "Ann Lee") in
  (add st).1 = Ok None ∧
  stdout (add st).2 =
    [OutTraceback (Some "ERROR: ")
       (ClientError "ResourceNotFoundException" "Requested resource not found")].
Proof. vm_compute. by split. Qed.

(** A second write of a key pair replaces the record, attributes and all. *)
Example add_user_overwrites :
  let st := Reference.fresh
              (Reference.users_table [<["email" := VStr "ann@example.org"]> ann]) in
  let add := Users.add_user Reference.service (VStr "u1") (VStr "Ann Lee") in
  (Users.query_by_user_id Reference.service (VStr "u1") (add st).2).1 =
    Ok (Some (Items [ann])).
Proof. vm_compute. reflexivity. Qed.

(** The answer of an update holds the fields set; the record stored holds
    the key pair as well. *)
Example update_user_then_query :
  let update :=
    Users.update_user Reference.service (VStr "u1") (VStr "Ann Lee")
      [("email", VStr "ann@example.org")] in
  (update with_ann).1 =
    Ok (Some (Attributes {[ "email" := VStr "ann@example.org" ]})) ∧
  (Users.query_by_user_id Reference.service (VStr "u1") (update with_ann).2).1 =
    Ok (Some (Items [<["email" := VStr "ann@example.org"]> ann])).
Proof. vm_compute. by split. Qed.

Example delete_user_by_id_then_query :
  let del :=
    Users.delete_user_by_id Reference.service (VStr "u1") (VStr "Ann Lee") in
  (del with_ann).1 = Ok true ∧
  (Users.query_by_user_id Reference.service (VStr "u1") (del with_ann).2).1 =
    Ok (Some (Items [])).
Proof. vm_compute. by split. Qed.

(** A provider error gives false. *)
Example delete_user_by_id_missing_table :
  let del :=
    Users.delete_user_by_id Reference.service (VStr "u1") (VStr "Ann Lee") in
  (del (Reference.fresh Reference.no_table)).1 = Ok false.
Proof. vm_compute. reflexivity. Qed.

(** A table this layer has created has no index [name-index]: the query by
    name is rejected, and the method returns [None]. *)
Example query_by_user_name_without_index :
  let st := (Users.create_table Reference.service "users"
               (Reference.fresh Reference.no_table)).2 in
  (Users.query_by_user_name Reference.service (VStr "Ann") st).1 = Ok None.
Proof. vm_compute. reflexivity. Qed.

(** * Further properties of the methods *)

Section ListTables.
Context {W : Type} (svc : Service W) (st : state W).

(** X1. [list_tables()] makes one pass over the collection of tables (one
    call of the client library, however many pages it fetches), prints the
    name of every table the collection yields, in order, and leaves
    [self.table] alone.  It returns
    these tables when the iteration ends normally; when a provider error ends
    it, the error is logged and raised again, the names printed so far staying
    printed; any other exception is raised without a log entry. *)
Theorem list_tables_spec :
  let yielded := (svc_tables_all svc (world st)).1.1 in
  let stop := (svc_tables_all svc (world st)).1.2 in
  let r := (Users.list_tables svc st).1 in
  let st' := (Users.list_tables svc st).2 in
  calls st' = calls st ++ [ReqTablesAll] ∧
  stdout st' = stdout st ++ (OutLine <$> yielded) ∧
  table st' = table st ∧
  (stop = None → r = Ok yielded ∧ log st' = log st) ∧
  (∀ Code Message,
     stop = Some (ClientError Code Message) →
     r = Raise (ClientError Code Message) ∧
     log st' = log st ++ [list_tables_message Code Message]) ∧
  (∀ e, stop = Some e → is_ClientError e = false →
        r = Raise e ∧ log st' = log st).
Proof.
  pose proof (list_tables_run svc st) as Hrun. simpl in *.
  destruct Hrun as (Hcalls & Hout & Htable & Hrun).
  split; [done|]. split; [done|]. split; [done|].
  destruct (svc_tables_all svc (world st)).1.2 as [e|].
  - destruct e; simpl in *; clauses.
  - clauses.
Qed.
End ListTables.

Section MoreRecords.
Context {W : Type} (svc : Service W) (st : state W).
Context (user_id full_name : value).

(** X2. With a table bound, [query_by_user_id(user_id)] sends one query, on
    the table itself and not on an index, whose condition is the equality of
    [user_id] with the argument.  It returns what the response holds under
    [Items]; when the query raises, or when the response has no [Items], it
    prints the traceback and returns [None]; it never raises. *)
Theorem query_by_user_id_spec (t : string) :
  table st = Some t →
  let query := Users.query_by_user_id svc user_id in
  let answer := (svc_query svc t None (KeyEq "user_id" user_id) (world st)).1 in
  calls (query st).2 = calls st ++ [ReqQuery t None (KeyEq "user_id" user_id)] ∧
  (∀ resp items, answer = Ok resp → resp !! "Items" = Some items →
     (query st).1 = Ok (Some items) ∧ stdout (query st).2 = stdout st) ∧
  (∀ e, answer = Raise e →
     (query st).1 = Ok None ∧
     stdout (query st).2 = stdout st ++ [OutTraceback (Some "ERROR: ") e]) ∧
  (∀ resp, answer = Ok resp → resp !! "Items" = None →
     (query st).1 = Ok None ∧
     stdout (query st).2 =
       stdout st ++ [OutTraceback (Some "ERROR: ") (KeyError "Items")]) ∧
  (∃ v, (query st).1 = Ok v).
Proof.
  intros Ht query. pose proof (query_by_user_id_run svc st user_id) as Hrun.
  unfold query_run in Hrun. rewrite Ht in Hrun. fold query in Hrun.
  destruct Hrun as [Hcalls Hrun]. simpl. split; [done|].
  destruct (svc_query svc t None (KeyEq "user_id" user_id) (world st)).1
    as [resp|e].
  - destruct (resp !! "Items") as [items|] eqn:Hitems.
    + destruct Hrun as [Hr Hout]. clauses; congruence.
    + destruct Hrun as (Hr & Hout & _). clauses; congruence.
  - destruct Hrun as (Hr & Hout & _). clauses.
Qed.

(** X3. With a table bound, [delete_user_by_id(user_id, full_name)] sends one
    request, the deletion of the key made of the two attributes given and of
    nothing else.  It returns true when the deletion succeeds; on a provider
    error it prints the traceback and returns false; it neither logs nor
    rebinds [self.table]. *)
Theorem delete_user_by_id_spec (t : string) :
  table st = Some t →
  let Key := Users.key_item user_id full_name in
  let del := Users.delete_user_by_id svc user_id full_name in
  let answer := (svc_delete_item svc t Key (world st)).1 in
  calls (del st).2 = calls st ++ [ReqDeleteItem t Key] ∧
  (dom Key = {["user_id"; "full_name"]} ∧
   Key !! "user_id" = Some user_id ∧ Key !! "full_name" = Some full_name) ∧
  (∀ resp, answer = Ok resp →
     (del st).1 = Ok true ∧ stdout (del st).2 = stdout st) ∧
  (∀ Code Message, answer = Raise (ClientError Code Message) →
     (del st).1 = Ok false ∧
     stdout (del st).2 =
       stdout st ++
       [OutTraceback (Some "Error: ") (ClientError Code Message)]) ∧
  log (del st).2 = log st ∧ table (del st).2 = Some t.
Proof.
  intros Ht Key del. subst Key del. split; [|split].
  - pose proof (delete_user_by_id_run svc st user_id full_name) as Hrun.
    simpl in Hrun. rewrite Ht in Hrun. by destruct Hrun.
  - by rewrite key_item_dom, key_item_user_id, key_item_full_name.
  - unfold Users.delete_user_by_id. autounfold with monad_ops; simpl.
    rewrite Ht. simpl.
    destruct (svc_delete_item svc t (Users.key_item user_id full_name)
                (world st)) as [[resp|[]] w]; simpl; clauses.
Qed.
End MoreRecords.

Lemma query_by_user_id_spec_witness :
  table with_ann = Some "users" ∧
  (Users.query_by_user_id Reference.service (VStr "u1") with_ann).1 =
    Ok (Some (Items [ann])).
Proof.
  split; [reflexivity|].
  destruct (query_by_user_id_spec Reference.service with_ann (VStr "u1")
              "users" eq_refl) as (_ & Hitems & _).
  eapply Hitems; vm_compute; reflexivity.
Defined.

Lemma delete_user_by_id_spec_witness :
  table with_ann = Some "users" ∧
  (Users.delete_user_by_id Reference.service (VStr "u1") (VStr "Ann Lee")
     with_ann).1 = Ok true.
Proof.
  split; [reflexivity|].
  destruct (delete_user_by_id_spec Reference.service with_ann (VStr "u1")
              (VStr "Ann Lee") "users" eq_refl) as (_ & _ & Hok & _).
  eapply Hok. vm_compute. reflexivity.
Defined.

(** ** What the methods leave alone *)

(** Runs a method and splits on everything its result depends on: whether a
    table is bound, what each remote operation answers, what the response
    holds. *)
Ltac run_cases :=
  autounfold with monad_ops; simpl;
  repeat (match goal with
          | |- context [match table ?st with _ => _ end] =>
              destruct (table st) eqn:?
          | |- context [svc_load ?s ?t ?w] =>
              destruct (svc_load s t w) as [[?|[]] ?] eqn:?
          | |- context [svc_tables_all ?s ?w] =>
              destruct (svc_tables_all s w) as [[? [[]|]] ?] eqn:?;
              rewrite ?for_tables_run
          | |- context [svc_create_table ?s ?n ?k ?a ?b ?w] =>
              destruct (svc_create_table s n k a b w) as [[?|[]] ?] eqn:?
          | |- context [svc_wait_until_exists ?s ?t ?w] =>
              destruct (svc_wait_until_exists s t w) as [[?|[]] ?] eqn:?
          | |- context [svc_delete ?s ?t ?w] =>
              destruct (svc_delete s t w) as [[?|[]] ?] eqn:?
          | |- context [svc_put_item ?s ?t ?i ?w] =>
              destruct (svc_put_item s t i w) as [[?|[]] ?] eqn:?
          | |- context [svc_query ?s ?t ?i ?c ?w] =>
              destruct (svc_query s t i c w) as [[?|[]] ?] eqn:?
          | |- context [svc_update_item ?s ?t ?k ?e ?v ?r ?w] =>
              destruct (svc_update_item s t k e v r w) as [[?|[]] ?] eqn:?
          | |- context [svc_delete_item ?s ?t ?k ?w] =>
              destruct (svc_delete_item s t k w) as [[?|[]] ?] eqn:?
          | |- context [match ?x !! ?k with _ => _ end] =>
              destruct (x !! k) eqn:?
          | |- context [if String.eqb ?a ?b then _ else _] =>
              destruct (String.eqb a b) eqn:?
          end; simpl).

(** Closes a goal on the requests a run has added. *)
Ltac count_requests :=
  first
    [ exists []; split; [by rewrite app_nil_r | simpl; lia]
    | eexists [_]; split; [reflexivity | simpl; lia]
    | eexists [_; _]; split; [by rewrite <- app_assoc | simpl; lia] ].

Section Frames.
Context {W : Type} (svc : Service W).

(** X4. The five record-level methods never rebind [self.table] nor change
    [self.dyn_resource], never write to the logger, and send at most one
    request to the service, whatever the service answers and whatever the
    state of the object. *)
Theorem record_methods_frame (user_id full_name name : value)
    (kwargs : list (string * value)) :
  record_frame (Users.add_user svc user_id full_name) ∧
  record_frame (Users.query_by_user_id svc user_id) ∧
  record_frame (Users.query_by_user_name svc name) ∧
  record_frame (Users.update_user svc user_id full_name kwargs) ∧
  record_frame (Users.delete_user_by_id svc user_id full_name).
Proof.
  unfold record_frame, keeps_binding, keeps_log, sends_at_most.
  repeat apply conj; intros st; repeat apply conj;
    unfold Users.add_user, Users.query_by_user_id, Users.query_by_user_name,
      Users.update_user, Users.delete_user_by_id;
    try destruct (Users.for_kwargs kwargs [] ∅) as [ue ea];
    run_cases; try done; count_requests.
Qed.

(** X5. [exists], [create_table] and [delete_table] print nothing, and no
    table-management method changes [self.dyn_resource]; [exists],
    [list_tables] and [delete_table] make at most one call to the client
    library (the load, the pass over the collection, the deletion), and
    [create_table] at most two (the creation and the wait). *)
Theorem table_methods_frame (table_name : string) :
  (keeps_stdout (Users.exists_ svc) ∧
   keeps_stdout (Users.create_table svc table_name) ∧
   keeps_stdout (Users.delete_table svc)) ∧
  (∀ st, dyn_resource (Users.exists_ svc st).2 = dyn_resource st ∧
         dyn_resource (Users.list_tables svc st).2 = dyn_resource st ∧
         dyn_resource (Users.create_table svc table_name st).2 =
           dyn_resource st ∧
         dyn_resource (Users.delete_table svc st).2 = dyn_resource st) ∧
  (sends_at_most 1 (Users.exists_ svc) ∧
   sends_at_most 1 (Users.list_tables svc) ∧
   sends_at_most 2 (Users.create_table svc table_name) ∧
   sends_at_most 1 (Users.delete_table svc)).
Proof.
  unfold keeps_stdout, sends_at_most.
  repeat apply conj; intros st; repeat apply conj;
    unfold Users.exists_, Users.list_tables, Users.create_table,
      Users.delete_table, Users.Table;
    run_cases;
    try done; count_requests.
Qed.

End Frames.

(** ** The binding of the object *)

Section Binding.
Context {W : Type} (svc : Service W) (st : state W).

(** X7. [exists()] does not look at [self.table]: it loads the table "users"
    whatever table the object is bound to (one bound by [create_table] under
    another name, or none).  Its result, its request, its log and the world it
    leaves are the same for every binding; on success the binding becomes
    "users", otherwise it stays what it was. *)
Theorem exists_ignores_binding (t : option string) :
  let run := Users.exists_ svc st in
  let run' := Users.exists_ svc (bound_to t st) in
  run'.1 = run.1 ∧ world run'.2 = world run.2 ∧ calls run'.2 = calls run.2 ∧
  log run'.2 = log run.2 ∧ stdout run'.2 = stdout run.2 ∧
  (run.1 = Ok true → table run'.2 = Some "users") ∧
  (run.1 ≠ Ok true → table run'.2 = t).
Proof.
  unfold bound_to, Users.exists_, Users.Table. run_cases; clauses.
Qed.

(** X8. [create_table] rebinds [self.table] as soon as the creation has
    answered, before the wait: when the wait then raises, the exception
    reaches the caller and the object is bound to the new table all the same.
    When the creation itself raises, there is no wait and the binding is
    unchanged. *)
Theorem create_table_binding (table_name : string) :
  let created :=
    svc_create_table svc table_name Users.KeySchema Users.AttributeDefinitions
      "PAY_PER_REQUEST" (world st) in
  let r := (Users.create_table svc table_name st).1 in
  let st' := (Users.create_table svc table_name st).2 in
  (∀ t, created.1 = Ok t →
        table st' = Some t ∧
        calls st' = calls st ++
          [create_table_request table_name; ReqWaitUntilExists t] ∧
        ∀ e, (svc_wait_until_exists svc t created.2).1 = Raise e →
             r = Raise e) ∧
  (∀ e, created.1 = Raise e →
        r = Raise e ∧ table st' = table st ∧
        calls st' = calls st ++ [create_table_request table_name]).
Proof.
  unfold Users.create_table, create_table_request.
  autounfold with monad_ops; simpl.
  destruct (svc_create_table svc table_name Users.KeySchema
              Users.AttributeDefinitions "PAY_PER_REQUEST" (world st))
    as [[t|e] w]; simpl.
  - destruct (svc_wait_until_exists svc t w) as [[[]|e] w'] eqn:Hwait; simpl.
    + split; [|done]. intros ? [= <-]. rewrite Hwait, <- app_assoc. by simpl.
    + split; [|done]. intros ? [= <-]. rewrite Hwait. simpl.
      destruct e; simpl; rewrite <- app_assoc; by (repeat split; intros; simplify_eq).
  - split; [done|]. intros ? [= <-]. by destruct e.
Qed.

(** X9. The handlers of the table-management methods take provider errors
    only: any other exception raised by the remote operation (a waiter that
    gives up, a connection that fails) reaches the caller as it is, and
    nothing is logged. *)
Theorem table_methods_pass_other_errors (e : exn) (table_name : string) :
  is_ClientError e = false →
  ((svc_load svc "users" (world st)).1 = Raise e →
   passes_unlogged (Users.exists_ svc) st e) ∧
  ((svc_tables_all svc (world st)).1.2 = Some e →
   passes_unlogged (Users.list_tables svc) st e) ∧
  ((svc_create_table svc table_name Users.KeySchema Users.AttributeDefinitions
      "PAY_PER_REQUEST" (world st)).1 = Raise e →
   passes_unlogged (Users.create_table svc table_name) st e) ∧
  (∀ t w,
     svc_create_table svc table_name Users.KeySchema Users.AttributeDefinitions
       "PAY_PER_REQUEST" (world st) = (Ok t, w) →
     (svc_wait_until_exists svc t w).1 = Raise e →
     passes_unlogged (Users.create_table svc table_name) st e) ∧
  (∀ t, table st = Some t → (svc_delete svc t (world st)).1 = Raise e →
        passes_unlogged (Users.delete_table svc) st e).
Proof.
  intros He. unfold passes_unlogged. repeat apply conj.
  - unfold Users.exists_, Users.Table. autounfold with monad_ops; simpl.
    destruct (svc_load svc "users" (world st)) as [[[]|e'] w]; simpl; [done|].
    intros [= ->]. by destruct e.
  - intros Hstop. pose proof (list_tables_run svc st) as Hrun.
    simpl in Hrun. rewrite Hstop in Hrun.
    destruct Hrun as (_ & _ & _ & Hrun). by destruct e.
  - unfold Users.create_table. autounfold with monad_ops; simpl.
    destruct (svc_create_table svc table_name Users.KeySchema
                Users.AttributeDefinitions "PAY_PER_REQUEST" (world st))
      as [[t|e'] w]; simpl; [done|].
    intros [= ->]. by destruct e.
  - intros t w Hcreate. unfold Users.create_table.
    autounfold with monad_ops; simpl. rewrite Hcreate. simpl.
    destruct (svc_wait_until_exists svc t w) as [[[]|e'] w']; simpl; [done|].
    intros [= ->]. by destruct e.
  - intros t Ht. unfold Users.delete_table.
    autounfold with monad_ops; simpl. rewrite Ht.
    destruct (svc_delete svc t (world st)) as [[[]|e'] w]; simpl; [done|].
    intros [= ->]. by destruct e.
Qed.

(** X10. On an object bound to no table, no method that goes through
    [self.table] sends anything: [add_user], the two queries and
    [update_user] print the [AttributeError] and return [None], and
    [delete_user_by_id] and [delete_table] raise it, the state being otherwise
    untouched. *)
Theorem unbound_object (user_id full_name name : value)
    (kwargs : list (string * value)) :
  table st = None →
  Users.add_user svc user_id full_name st =
    (Ok None,
     (print (OutTraceback (Some "ERROR: ") (AttributeError "put_item")) st).2) ∧
  Users.query_by_user_id svc user_id st =
    (Ok None,
     (print (OutTraceback (Some "ERROR: ") (AttributeError "query")) st).2) ∧
  Users.query_by_user_name svc name st =
    (Ok None,
     (print (OutTraceback (Some "ERROR: ") (AttributeError "query")) st).2) ∧
  Users.update_user svc user_id full_name kwargs st =
    (Ok None,
     (print (OutTraceback None (AttributeError "update_item")) st).2) ∧
  Users.delete_user_by_id svc user_id full_name st =
    (Raise (AttributeError "delete_item"), st) ∧
  Users.delete_table svc st = (Raise (AttributeError "delete"), st).
Proof.
  intros Ht.
  unfold Users.add_user, Users.query_by_user_id, Users.query_by_user_name,
    Users.update_user, Users.delete_user_by_id, Users.delete_table.
  destruct (Users.for_kwargs kwargs [] ∅) as [ue ea].
  autounfold with monad_ops; simpl. rewrite Ht. simpl. rewrite ?Ht.
  by repeat split.
Qed.

(** X11. After a [delete_table] that succeeded the object is unbound: a
    second [delete_table] raises an [AttributeError] without sending
    anything, so the remote service sees one deletion only; a later
    [exists()] whose load succeeds binds the object to "users" again. *)
Theorem after_delete_table (t : string) :
  table st = Some t →
  (svc_delete svc t (world st)).1 = Ok () →
  let st1 := (Users.delete_table svc st).2 in
  calls st1 = calls st ++ [ReqDelete t] ∧
  Users.delete_table svc st1 = (Raise (AttributeError "delete"), st1) ∧
  ((svc_load svc "users" (world st1)).1 = Ok () →
   (Users.exists_ svc st1).1 = Ok true ∧
   table (Users.exists_ svc st1).2 = Some "users").
Proof.
  intros Ht Hdel. unfold Users.delete_table, Users.exists_, Users.Table.
  autounfold with monad_ops; simpl. rewrite Ht. simpl.
  destruct (svc_delete svc t (world st)) as [[[]|e] w]; simpl in *;
    [|discriminate].
  split; [done|]. split; [done|].
  destruct (svc_load svc "users" w) as [[[]|e] w']; simpl; [done|].
  intros [=].
Qed.
End Binding.

Lemma unbound_object_witness :
  let st := (Users.delete_table Reference.service with_ann).2 in
  table st = None ∧
  (Users.add_user Reference.service (VStr "u1") (VStr "Ann Lee") st).1 =
    Ok None ∧
  calls (Users.add_user Reference.service (VStr "u1") (VStr "Ann Lee") st).2 =
    [ReqDelete "users"].
Proof.
  split; [reflexivity|].
  destruct (unbound_object Reference.service
              (Users.delete_table Reference.service with_ann).2
              (VStr "u1") (VStr "Ann Lee") VNone [] eq_refl) as (Hadd & _).
  rewrite Hadd. split; reflexivity.
Defined.

Lemma after_delete_table_witness :
  let st1 := (Users.delete_table Reference.service with_ann).2 in
  table with_ann = Some "users" ∧
  (svc_delete Reference.service "users" (world with_ann)).1 = Ok () ∧
  Users.delete_table Reference.service st1 =
    (Raise (AttributeError "delete"), st1).
Proof.
  split; [reflexivity|]. split; [reflexivity|].
  apply (after_delete_table Reference.service with_ann "users" eq_refl eq_refl).
Defined.

Lemma table_methods_pass_other_errors_witness :
  is_ClientError Offline.unreachable = false ∧
  (Users.exists_ Offline.service Offline.fresh).1 =
    Raise Offline.unreachable ∧
  log (Users.exists_ Offline.service Offline.fresh).2 = [].
Proof.
  split; [reflexivity|].
  destruct (table_methods_pass_other_errors Offline.service Offline.fresh
              Offline.unreachable "users" eq_refl) as (Hexists & _).
  apply Hexists. reflexivity.
Defined.

Lemma delete_user_by_id_other_error {W} (svc : Service W)
    (st : state W) (user_id full_name : value) (t : string) (e : exn) :
  table st = Some t →
  (svc_delete_item svc t (Users.key_item user_id full_name) (world st)).1 =
    Raise e →
  is_ClientError e = false →
  (Users.delete_user_by_id svc user_id full_name st).1 = Raise e ∧
  stdout (Users.delete_user_by_id svc user_id full_name st).2 = stdout st.
Proof.
  intros Ht He Hnc.
  pose proof (delete_user_by_id_run svc st user_id full_name) as Hrun.
  simpl in Hrun. rewrite Ht, He in Hrun. destruct Hrun as [_ Hrun].
  by destruct e.
Qed.

(** ** The construction of an object *)

Section Construction.
Context {W : Type} (svc : Service W).
Context (dotenv environ : environment) (w : W).

End Construction.

(** The objects the examples run on are those [__init__] builds when the
    environment has neither credential. *)
Lemma init_without_credentials :
  (∀ w, Users.init None None w = Ok (Reference.fresh w)) ∧
  Users.init None None () = Ok Offline.fresh.
Proof. by split. Qed.

Example new_Users_partial_credentials :
  new_Users (W := ()) ∅ {[ "AWS_ACCESS_KEY_ID" := "AKIAEXAMPLE" ]} () =
    Raise (OtherException "PartialCredentialsError") ∧
  new_Users (W := ()) {[ "AWS_SECRET_ACCESS_KEY" := "secret" ]}
    {[ "AWS_ACCESS_KEY_ID" := "AKIAEXAMPLE" ]} () =
    Ok (State ()
          {| aws_access_key_id := Some "AKIAEXAMPLE";
             aws_secret_access_key := Some "secret";
             region_name := "us-east-1" |}
          (Some "users") [] [] []).
Proof. vm_compute. by split. Qed.

(** ** The loop of [update_user] *)

(** X14. The loop of [update_user] makes one assignment per field, in the
    order of the fields, and one entry of the value map per field: no two
    fields share a placeholder. *)
Theorem for_kwargs_counts (kwargs : list (string * value)) :
  NoDup (kwargs.*1) →
  (Users.for_kwargs kwargs [] ∅).1 = (λ k, k +:+ "=:" +:+ k) <$> kwargs.*1 ∧
  length (Users.for_kwargs kwargs [] ∅).1 = length kwargs ∧
  size (Users.for_kwargs kwargs [] ∅).2 = length kwargs.
Proof.
  intros Hnd. rewrite for_kwargs_spec. simpl.
  split; [done|]. split; [by rewrite !length_fmap|].
  rewrite value_map_fold by done. unfold value_map.
  rewrite map_size_list_to_map, length_fmap; [done|].
  clear -Hnd. induction kwargs as [|[k v] kwargs IH]; csimpl; [constructor|].
  apply NoDup_cons in Hnd as [Hk Hnd]. constructor; [|by apply IH].
  by rewrite placeholder_fst_elem.
Qed.

Lemma for_kwargs_counts_witness :
  let fields := [("email", VStr "ann@example.org"); ("age", VInt 30)] in
  NoDup (fields.*1) ∧
  (Users.for_kwargs fields [] ∅).1 = ["email=:email"; "age=:age"] ∧
  size (Users.for_kwargs fields [] ∅).2 = 2.
Proof.
  assert (Hnd : NoDup ([("email", VStr "ann@example.org"); ("age", VInt 30)].*1))
    by (apply (bool_decide_unpack _); vm_compute; exact I).
  split; [exact Hnd|].
  destruct (for_kwargs_counts _ Hnd) as (Hasg & _ & Hsize).
  split; [exact Hasg | exact Hsize].
Defined.

(** ** [delete_user_by_id] and the exceptions that are no provider error *)

(** X15. With a table bound, when the deletion raises an exception that is
    no provider error, [delete_user_by_id] sends its request, prints nothing,
    logs nothing and raises that exception to the caller. *)
Theorem delete_user_by_id_passes_other_errors {W} (svc : Service W)
    (st : state W) (user_id full_name : value) (t : string) (e : exn) :
  table st = Some t →
  (svc_delete_item svc t (Users.key_item user_id full_name) (world st)).1 =
    Raise e →
  is_ClientError e = false →
  let del := Users.delete_user_by_id svc user_id full_name in
  (del st).1 = Raise e ∧
  calls (del st).2 =
    calls st ++ [ReqDeleteItem t (Users.key_item user_id full_name)] ∧
  stdout (del st).2 = stdout st ∧ log (del st).2 = log st.
Proof.
  intros Ht He Hnc del. subst del.
  destruct (delete_user_by_id_other_error svc st user_id
              full_name t e Ht He Hnc) as [Hr Hout].
  pose proof (delete_user_by_id_run svc st user_id full_name) as Hrun.
  simpl in Hrun. rewrite Ht in Hrun. destruct Hrun as [Hcalls _].
  split; [done|]. split; [done|]. split; [done|].
  unfold Users.delete_user_by_id. run_cases; done.
Qed.

Lemma delete_user_by_id_passes_other_errors_witness :
  table Offline.fresh = Some "users" ∧
  is_ClientError Offline.unreachable = false ∧
  (Users.delete_user_by_id Offline.service (VStr "u1") (VStr "Ann Lee")
     Offline.fresh).1 = Raise Offline.unreachable.
Proof.
  split; [reflexivity|]. split; [reflexivity|].
  apply (delete_user_by_id_passes_other_errors Offline.service Offline.fresh
           (VStr "u1") (VStr "Ann Lee") "users" Offline.unreachable
           eq_refl eq_refl eq_refl).
Defined.

(** ** Which table the requests go to *)

Section Targets.
Context {W : Type} (svc : Service W) (st : state W).
Context (table_name : string) (user_id full_name : value).

(** X16. After a [create_table] that succeeded, the requests of the object go
    to the table the service has created: [add_user] writes to it and
    [delete_table] deletes it.  After an [exists()] that succeeded they go to
    the table "users", also when the object had been bound by [create_table]
    to a table of another name. *)
Theorem requests_follow_binding (t : string) (w1 w2 : W) :
  svc_create_table svc table_name Users.KeySchema Users.AttributeDefinitions
    "PAY_PER_REQUEST" (world st) = (Ok t, w1) →
  svc_wait_until_exists svc t w1 = (Ok (), w2) →
  let st1 := (Users.create_table svc table_name st).2 in
  let st2 := (Users.exists_ svc st1).2 in
  let Item := Users.key_item user_id full_name in
  calls (Users.add_user svc user_id full_name st1).2 =
    calls st1 ++ [ReqPutItem t Item] ∧
  calls (Users.delete_table svc st1).2 = calls st1 ++ [ReqDelete t] ∧
  ((svc_load svc "users" w2).1 = Ok () →
   calls (Users.add_user svc user_id full_name st2).2 =
     calls st2 ++ [ReqPutItem "users" Item] ∧
   calls (Users.delete_table svc st2).2 = calls st2 ++ [ReqDelete "users"]).
Proof.
  intros Hcreate Hwait.
  unfold Users.create_table, Users.exists_, Users.add_user,
    Users.delete_table, Users.Table.
  autounfold with monad_ops; simpl. rewrite Hcreate. simpl.
  rewrite Hwait. simpl.
  split; [by run_cases|]. split; [by run_cases|].
  destruct (svc_load svc "users" w2) as [[[]|e] w3]; simpl; [|done].
  intros _. split; by run_cases.
Qed.
End Targets.

Lemma requests_follow_binding_witness :
  let st := Reference.fresh (Reference.users_table []) in
  let st1 := (Users.create_table Reference.service "guests" st).2 in
  let st2 := (Users.exists_ Reference.service st1).2 in
  table st1 = Some "guests" ∧ table st2 = Some "users" ∧
  calls (Users.add_user Reference.service (VStr "u1") (VStr "Ann Lee") st1).2 =
    calls st1 ++ [ReqPutItem "guests" ann] ∧
  calls (Users.add_user Reference.service (VStr "u1") (VStr "Ann Lee") st2).2 =
    calls st2 ++ [ReqPutItem "users" ann].
Proof.
  split; [reflexivity|]. split; [reflexivity|].
  destruct (requests_follow_binding Reference.service
              (Reference.fresh (Reference.users_table [])) "guests"
              (VStr "u1") (VStr "Ann Lee") "guests" _ _ eq_refl eq_refl)
    as (Hadd & _ & Hexists).
  split; [exact Hadd|]. by apply Hexists.
Defined.

(** ** Round trips on the reference service *)

Lemma has_key_key_item (u f : string) :
  Reference.has_key (u, f) (Users.key_item (VStr u) (VStr f)) = true.
Proof. unfold Reference.has_key. by rewrite key_of_key_item, bool_decide_eq_true. Qed.

Lemma filter_others_idemp (k : string * string) (rs : list item) :
  filter (λ r, Reference.has_key k r = false)
    (filter (λ r, Reference.has_key k r = false) rs) =
  filter (λ r, Reference.has_key k r = false) rs.
Proof. by apply list_filter_filter_l. Qed.

Section RoundTrips.
Context (st : state Reference.db) (t u f : string) (td : Reference.table_data).

(** X17. On the reference service, with the table bound and existing,
    [add_user] succeeds and overwrites: afterwards the record of the pair is
    in the table, every record with that key pair is that record, with the
    two key attributes and nothing else, and the records of the other key
    pairs are those the table held; writing the same pair a second time
    succeeds and changes nothing. *)
Theorem add_user_twice :
  table st = Some t →
  world st !! t = Some td →
  let add := Users.add_user Reference.service (VStr u) (VStr f) in
  let new := Users.key_item (VStr u) (VStr f) in
  (add st).1 = Ok (Some Reference.metadata) ∧
  (∃ td', world (add st).2 !! t = Some td' ∧
          new ∈ Reference.records td' ∧
          (∀ r, r ∈ Reference.records td' →
                Reference.key_of r = Some (u, f) → r = new) ∧
          (∀ r, Reference.key_of r ≠ Some (u, f) →
                r ∈ Reference.records td' ↔ r ∈ Reference.records td)) ∧
  (add (add st).2).1 = Ok (Some Reference.metadata) ∧
  world (add (add st).2).2 = world (add st).2.
Proof.
  intros Ht Hw. unfold Users.add_user.
  autounfold with monad_ops; simpl. rewrite Ht. simpl.
  unfold Reference.put_item. rewrite Hw, key_of_key_item. simpl.
  rewrite ?Ht, !lookup_insert_eq, ?key_of_key_item. simpl.
  split; [done|]. split.
  { eexists. split; [reflexivity|]. simpl. split; [|split].
    - apply elem_of_app. right. by apply list_elem_of_singleton.
    - intros r [[Hk _]%list_elem_of_filter|Hr%list_elem_of_singleton]%elem_of_app
        Hkey; [|done].
      unfold Reference.has_key in Hk. by apply bool_decide_eq_false in Hk.
    - intros r Hkey. rewrite elem_of_app, list_elem_of_filter,
        list_elem_of_singleton. unfold Reference.has_key.
      rewrite bool_decide_eq_false. split.
      + intros [[_ Hr]| ->]; [done|]. by rewrite key_of_key_item in Hkey.
      + intros Hr. by left. }
  split; [done|].
  rewrite insert_insert_eq, filter_app, filter_others_idemp.
  rewrite (filter_cons_False _ (Users.key_item (VStr u) (VStr f))), filter_nil,
    app_nil_r; [done|].
  by rewrite has_key_key_item.
Qed.

(** X18. On the reference service, with the table bound and existing, for a
    pair that is the key of no record, [add_user] followed by
    [delete_user_by_id] of the same pair returns true and leaves the world as
    it was before the two calls. *)
Theorem add_then_delete :
  table st = Some t →
  world st !! t = Some td →
  absent u f td →
  let st1 := (Users.add_user Reference.service (VStr u) (VStr f) st).2 in
  let del := Users.delete_user_by_id Reference.service (VStr u) (VStr f) in
  (del st1).1 = Ok true ∧ world (del st1).2 = world st.
Proof.
  intros Ht Hw Habs. unfold Users.add_user, Users.delete_user_by_id.
  autounfold with monad_ops; simpl. rewrite Ht. simpl.
  unfold Reference.put_item. rewrite Hw, key_of_key_item. simpl.
  rewrite ?Ht. simpl. unfold Reference.delete_item.
  rewrite !lookup_insert_eq, ?key_of_key_item. simpl.
  split; [done|].
  rewrite insert_insert_eq, (filter_absent u f _ Habs), filter_app.
  rewrite (filter_absent u f _ Habs).
  rewrite (filter_cons_False _ (Users.key_item (VStr u) (VStr f))), filter_nil,
    app_nil_r by (by rewrite has_key_key_item).
  apply insert_id. by destruct td.
Qed.
End RoundTrips.

Lemma add_user_twice_witness :
  let add := Users.add_user Reference.service (VStr "u1") (VStr "Ann Lee") in
  table with_ann = Some "users" ∧
  world with_ann !! "users" =
    Some (Reference.TableData [ann] [("name-index", "name")]) ∧
  world (add (add with_ann).2).2 = world (add with_ann).2.
Proof.
  split; [reflexivity|]. split; [reflexivity|].
  apply (add_user_twice with_ann "users" "u1" "Ann Lee" _ eq_refl eq_refl).
Defined.

Lemma add_then_delete_witness :
  let st := Reference.fresh (Reference.users_table [cy]) in
  let st1 := (Users.add_user Reference.service (VStr "u1") (VStr "Ann Lee") st).2 in
  table st = Some "users" ∧
  absent "u1" "Ann Lee" (Reference.TableData [cy] [("name-index", "name")]) ∧
  world (Users.delete_user_by_id Reference.service (VStr "u1") (VStr "Ann Lee")
           st1).2 = world st.
Proof.
  assert (Habs : absent "u1" "Ann Lee"
                   (Reference.TableData [cy] [("name-index", "name")])).
  { intros r ->%list_elem_of_singleton. vm_compute. discriminate. }
  split; [reflexivity|]. split; [exact Habs|].
  apply (add_then_delete (Reference.fresh (Reference.users_table [cy]))
           "users" "u1" "Ann Lee" _ eq_refl eq_refl Habs).
Defined.
